(** * Credit-card default prediction pipeline: data preparation, explainer
    charts and the entry point, embedded from the Python sources.

    The program is glue code around pandas, scikit-learn, imbalanced-learn,
    shap and matplotlib.  What the program text itself decides (branching,
    data flow, exception handling, list comprehensions, the rounding of the
    class distribution) is written out below; every call into one of these
    libraries goes through a record of library behaviours ([libs]) and is
    logged in a trace, so that statements such as "the scaler is fitted
    once, on the balanced training features" are statements about the
    trace.  A call is logged whether it returns or raises.

    Numbers are exact rationals ([Q]): the binary rounding of floating-point
    division is not part of the model.  Strings are the UTF-8 bytes of the
    text.  What Python does with ASCII text is written out; the Unicode
    case mapping behind [str.lower()] and the escaping rules behind [repr]
    are tables of the interpreter and are fields of [libs] as well.  Of the
    program's prints, the trace keeps the warnings of the chart functions
    and the lines of the top-level handler; progress banners are left
    out. *)

From Stdlib Require Import List String Ascii Bool Arith ZArith QArith Qround Qabs Lia Lqa.
From Stdlib Require Import Sorted Permutation.
Import ListNotations.
Local Open Scope string_scope.

(* ===================================================================== *)
(** ** Python strings *)
(* ===================================================================== *)

Module Str.

Definition lower_ascii (c : ascii) : ascii :=
  let n := nat_of_ascii c in
  if (65 <=? n)%nat && (n <=? 90)%nat then ascii_of_nat (n + 32) else c.

(** [str.lower()] on ASCII text: the letters A-Z become a-z.  Bytes of
    other characters are left as they are; the method on arbitrary text is
    [py_lower] below. *)
Fixpoint lower (s : string) : string :=
  match s with
  | EmptyString => EmptyString
  | String c s' => String (lower_ascii c) (lower s')
  end.

(** [s.endswith(suffix)] *)
Definition endswith (s suffix : string) : bool :=
  let n := String.length s in
  let m := String.length suffix in
  (m <=? n)%nat && String.eqb (substring (n - m) m s) suffix.

(** The whitespace the specification's "surrounding whitespace stripped" is
    read with: space, tab, line feed, vertical tab, form feed, carriage
    return. *)
Definition is_space (c : ascii) : bool :=
  let n := nat_of_ascii c in
  (n =? 32)%nat || ((9 <=? n)%nat && (n <=? 13)%nat).

Fixpoint lstrip (s : string) : string :=
  match s with
  | EmptyString => EmptyString
  | String c s' => if is_space c then lstrip s' else s
  end.

Fixpoint rstrip (s : string) : string :=
  match s with
  | EmptyString => EmptyString
  | String c s' =>
      match rstrip s' with
      | EmptyString => if is_space c then EmptyString else String c EmptyString
      | r => String c r
      end
  end.

(** A string without its surrounding whitespace. *)
Definition strip (s : string) : string := rstrip (lstrip s).

(** [sep.join(items)] *)
Fixpoint join (sep : string) (items : list string) : string :=
  match items with
  | [] => ""
  | [x] => x
  | x :: rest => x ++ sep ++ join sep rest
  end.

Definition nl : string := String (ascii_of_nat 10) EmptyString.

(** A character of the ASCII range. *)
Definition is_ascii_char (c : ascii) : bool := (nat_of_ascii c <? 128)%nat.

(** [s.isascii()] *)
Fixpoint isascii (s : string) : bool :=
  match s with
  | EmptyString => true
  | String c s' => is_ascii_char c && isascii s'
  end.

(** A character [repr] prints as it stands, between single quotes:
    printable ASCII other than the quote and the backslash. *)
Definition is_plain_char (c : ascii) : bool :=
  let n := nat_of_ascii c in
  (32 <=? n)%nat && (n <=? 126)%nat && negb (n =? 39)%nat && negb (n =? 92)%nat.

Fixpoint is_plain (s : string) : bool :=
  match s with
  | EmptyString => true
  | String c s' => is_plain_char c && is_plain s'
  end.

(** [repr] of a list of plain names: each name between single quotes.  The
    [repr] of any list of names is [py_repr_list] below. *)
Definition repr_list (items : list string) : string :=
  "[" ++ join ", " (map (fun s => "'" ++ s ++ "'") items) ++ "]".

End Str.

(* ===================================================================== *)
(** ** Exceptions and results *)
(* ===================================================================== *)

(** A Python exception: its class name and [str(e)]. *)
Record exn := mk_exn { exn_class : string; exn_msg : string }.

Definition ValueError (msg : string) : exn := mk_exn "ValueError" msg.
Definition IndexError (msg : string) : exn := mk_exn "IndexError" msg.
Definition AttributeError (msg : string) : exn := mk_exn "AttributeError" msg.
Definition KeyError (msg : string) : exn := mk_exn "KeyError" msg.

Inductive result (A : Type) : Type :=
| Ok (a : A)
| Err (e : exn).
Arguments Ok {A} a.
Arguments Err {A} e.

Definition is_ok {A} (r : result A) : bool :=
  match r with Ok _ => true | Err _ => false end.

(* ===================================================================== *)
(** ** Tables *)
(* ===================================================================== *)

(** A cell is a number or a string (pandas' [object] dtype). *)
Inductive cell :=
| Num (q : Q)
| Text (s : string).

Definition cell_eqb (a b : cell) : bool :=
  match a, b with
  | Num x, Num y => Qeq_bool x y
  | Text s, Text t => String.eqb s t
  | _, _ => false
  end.

Definition is_text (c : cell) : bool :=
  match c with Text _ => true | Num _ => false end.

Definition Series := list cell.

(** A [DataFrame]: ordered column labels, which may repeat, and the rows. *)
Record DataFrame := mk_frame { columns : list string; rows : list (list cell) }.

(** A numpy array of floats, row-major. *)
Definition ndarray := list (list Q).

Module Frame.

(** [name in df.columns] *)
Definition has_column (df : DataFrame) (name : string) : bool :=
  existsb (String.eqb name) (columns df).

(** [df.columns = new] *)
Definition set_columns (df : DataFrame) (new : list string) : DataFrame :=
  mk_frame new (rows df).

(** Positions of the columns carrying [name]: [df[name]] is a [Series] when
    there is one, a [DataFrame] when there are several, and raises
    [KeyError] when there is none. *)
Fixpoint positions (name : string) (cols : list string) (i : nat) : list nat :=
  match cols with
  | [] => []
  | c :: cs => if String.eqb c name then i :: positions name cs (S i)
               else positions name cs (S i)
  end.

Definition column_at (df : DataFrame) (i : nat) : Series :=
  map (fun r => nth i r (Num 0)) (rows df).

Fixpoint keep_mask {A} (mask : list bool) (l : list A) : list A :=
  match mask, l with
  | m :: ms, x :: xs => if m then x :: keep_mask ms xs else keep_mask ms xs
  | _, _ => []
  end.

(** [df.drop(columns=[name])]: every column with that label goes. *)
Definition drop (df : DataFrame) (name : string) : DataFrame :=
  let mask := map (fun c => negb (String.eqb name c)) (columns df) in
  mk_frame (keep_mask mask (columns df)) (map (keep_mask mask) (rows df)).

(** [df[name] = values] for a label that occurs once. *)
Fixpoint set_nth {A} (i : nat) (v : A) (l : list A) : list A :=
  match l, i with
  | [], _ => []
  | _ :: xs, O => v :: xs
  | x :: xs, S j => x :: set_nth j v xs
  end.

Fixpoint set_column_rows (i : nat) (values : Series) (rs : list (list cell))
  : list (list cell) :=
  match rs, values with
  | r :: rs', v :: vs => set_nth i v r :: set_column_rows i vs rs'
  | _, _ => rs
  end.

Definition setitem (df : DataFrame) (i : nat) (values : Series) : DataFrame :=
  mk_frame (columns df) (set_column_rows i values (rows df)).

End Frame.

(* ===================================================================== *)
(** ** Library calls, their trace, and the exception monad *)
(* ===================================================================== *)

(** The two spreadsheet engines [read_excel] is asked for. *)
Inductive engine := Openpyxl | Xlrd.

(** The fitted state of a [StandardScaler]. *)
Record scaler_state := mk_scaler { mean_ : list Q; scale_ : list Q }.

(** Arrays as shap returns them: one- or two-dimensional. *)
Inductive nparray :=
| Vec (v : list Q)
| Mat (m : list (list Q)).

(** The values the entry point moves around untyped. *)
Inductive pyval :=
| PyFrame (d : DataFrame)
| PyArray (a : ndarray)
| PySeries (s : Series)
| PyNames (l : list string).

(** A fitted random forest is determined by what it was fitted on (the
    hyper-parameters and its seed are constants of [config.py]). *)
Inductive forest := FittedOn (X y : pyval).

Inductive shap_out :=
| ShapList (l : list nparray)
| ShapArray (a : nparray).

Inductive expected :=
| ExpScalar (q : Q)
| ExpVector (l : list Q).

(** A tick label of the first-prediction chart, ["{name} = {value:.2f}"],
    kept structured. *)
Inductive tick :=
| TickName (name : string)
| TickNameValue (name : string) (value : Q).

Inductive plt_op :=
| Figure (width height : Z)
| Barh (positions : list nat) (widths : list Q) (colors : list string)
| Yticks (positions : list nat) (labels : list tick)
| Title (s : string)
| Xlabel (s : string)
| TightLayout
| Savefig (path : string)
| Close.

Inductive event :=
| ReadCsv (path : string)
| ReadExcel (e : engine) (path : string)
| CatCodes (s : Series)
| GetDummies (df : DataFrame) (cols : list string)
| TrainTestSplit (X : DataFrame) (y : Series) (test_size : Q) (random_state : Z)
| SmoteFitResample (random_state : Z) (X : DataFrame) (y : Series)
| ScalerFit (X : DataFrame)
| ScalerTransform (X : DataFrame)
| ForestFit (X y : pyval)
| ForestEvaluate (f : forest) (X y : pyval) (output_file : string)
| TreeExplainer (f : forest)
| ShapValues (f : forest) (X : pyval)
| SummaryPlot (values : shap_out) (X : pyval) (names : option (list string))
    (bar : bool) (max_display : nat)
| Plt (op : plt_op)
| PrintExc
| Print (s : string).

(** What the third-party libraries answer.  Each field is the outcome of one
    call as a function of its arguments.  The last two fields are tables of
    the interpreter itself: [str.lower()] on text that is not all ASCII, and
    [repr] of a list of names of which one needs escaping or another
    quote. *)
Record libs := mk_libs {
  pd_read_csv : string -> result DataFrame;
  pd_read_excel : engine -> string -> result DataFrame;
  pd_cat_codes : Series -> result Series;
  pd_get_dummies : DataFrame -> list string -> result DataFrame;
  sk_train_test_split :
    DataFrame -> Series -> Q -> Z -> result (DataFrame * DataFrame * Series * Series);
  imb_fit_resample : Z -> DataFrame -> Series -> result (DataFrame * Series);
  sk_scaler_fit : DataFrame -> result scaler_state;
  sk_scaler_transform : scaler_state -> DataFrame -> result ndarray;
  sk_forest_fit : pyval -> pyval -> result forest;
  sk_forest_evaluate : forest -> pyval -> pyval -> string -> result unit;
  shap_tree_explainer : forest -> result expected;
  shap_shap_values : forest -> pyval -> result shap_out;
  shap_summary_plot :
    shap_out -> pyval -> option (list string) -> bool -> nat -> result unit;
  plt_call : plt_op -> result unit;
  str_lower_unicode : string -> string;
  repr_escaped : list string -> string
}.

(** [s.lower()].  On ASCII text Python turns A-Z into a-z and nothing else;
    text with any other character goes through the Unicode case mapping. *)
Definition py_lower (L : libs) (s : string) : string :=
  if Str.isascii s then Str.lower s else str_lower_unicode L s.

(** [repr] of a list of names, as an f-string prints [columns.tolist()]. *)
Definition py_repr_list (L : libs) (items : list string) : string :=
  if forallb Str.is_plain items then Str.repr_list items else repr_escaped L items.

(** The mutable state: the trace of library calls and prints, and the two
    attributes of the [DataLoader] object. *)
Record world := mk_world {
  trace : list event;
  scaler : option scaler_state;
  feature_names_ : option (list string)
}.

Definition emit (e : event) (w : world) : world :=
  mk_world (trace w ++ [e]) (scaler w) (feature_names_ w).

Definition M (A : Type) : Type := world -> result A * world.

Definition ret {A} (a : A) : M A := fun w => (Ok a, w).

Definition bind {A B} (c : M A) (k : A -> M B) : M B :=
  fun w => match c w with
           | (Ok a, w') => k a w'
           | (Err e, w') => (Err e, w')
           end.

Definition raise {A} (e : exn) : M A := fun w => (Err e, w).

(** [try: body / except Exception as e: handler e] *)
Definition try_except {A} (body : M A) (handler : exn -> M A) : M A :=
  fun w => match body w with
           | (Ok a, w') => (Ok a, w')
           | (Err e, w') => handler e w'
           end.

(** A logged library call. *)
Definition call {A} (e : event) (outcome : result A) : M A :=
  fun w => (outcome, emit e w).

Definition lift {A} (r : result A) : M A := fun w => (r, w).

Definition print (s : string) : M unit := call (Print s) (Ok tt).

Declare Scope py_scope.
Delimit Scope py_scope with py.
Notation "x <- c ;; k" := (bind c (fun x => k))
  (at level 100, c at next level, right associativity) : py_scope.
Notation "' p <- c ;; k" := (bind c (fun x => match x with p => k end))
  (at level 100, p pattern, c at next level, right associativity) : py_scope.
Notation "c ;;; k" := (bind c (fun _ => k))
  (at level 100, right associativity) : py_scope.
Local Open Scope py_scope.

(* ===================================================================== *)
(** ** config.py *)
(* ===================================================================== *)

Module Config.

Definition target_column : string := "default payment next month".
Definition categorical_columns : list string := ["sex"; "education"; "marriage"].
Definition test_size : Q := 2 # 10.
Definition random_state : Z := 42.
Definition max_display : Z := 15.

Record file_paths := mk_paths {
  confusion_matrix : string;
  shap_summary : string;
  shap_bar : string;
  shap_first_prediction : string;
  shap_waterfall : string
}.

Definition FILE_PATHS : file_paths :=
  mk_paths "output/confusion_matrix.png" "output/shap_summary.png"
           "output/shap_bar.png" "output/shap_first_prediction.png"
           "output/shap_waterfall_plot.png".

End Config.

(* ===================================================================== *)
(** ** data_loader.py *)
(* ===================================================================== *)

Module DataLoader.

(** [DataLoader()]: an unfitted scaler, [feature_names_ = None]. *)
Definition init : M unit :=
  fun w => (Ok tt, mk_world (trace w) None None).

(** Lines 21-27: the parser is chosen by one test on the path; whatever is
    not [.csv] goes to [read_excel], first with openpyxl and, on any
    exception, once more with xlrd.  The test reads the last four
    characters of the lower-cased path: [.csv] is ASCII, and a character
    that lower-cases to one of its four is that character or its capital,
    so the ASCII [lower] decides the test as Python's does. *)
Definition read_file (L : libs) (file_path : string) : M DataFrame :=
  if Str.endswith (Str.lower file_path) ".csv"
  then call (ReadCsv file_path) (pd_read_csv L file_path)
  else try_except
         (call (ReadExcel Openpyxl file_path) (pd_read_excel L Openpyxl file_path))
         (fun _ => call (ReadExcel Xlrd file_path) (pd_read_excel L Xlrd file_path)).

(** Line 34: [data.columns = data.columns.str.lower()]. *)
Definition lower_columns (L : libs) (data : DataFrame) : DataFrame :=
  Frame.set_columns data (map (py_lower L) (columns data)).

(** Lines 21-34, the reading part of [load_data]. *)
Definition read_table (L : libs) (file_path : string) : M DataFrame :=
  data <- read_file L file_path ;;
  ret (lower_columns L data).

(** [series.dtype == 'object']: strings make a column an object column, and
    so does having no value at all when it comes out of a parser. *)
Definition is_object (s : Series) : bool :=
  match s with
  | [] => true
  | _ => existsb is_text s
  end.

Definition set_feature_names_ (names : list string) : M unit :=
  fun w => (Ok tt, mk_world (trace w) (scaler w) (Some names)).

Definition set_scaler (st : scaler_state) : M unit :=
  fun w => (Ok tt, mk_world (trace w) (Some st) (feature_names_ w)).

(** [_preprocess_data].  [df[target_column]] is a [Series] only when the
    label occurs once; with a repeated label it is a [DataFrame], and
    [.dtype] on it raises [AttributeError]. *)
Definition _preprocess_data (L : libs) (data : DataFrame) (target_column : string)
  : M (DataFrame * Series * list string) :=
  let df := data in
  match Frame.positions target_column (columns df) 0 with
  | [] => raise (KeyError target_column)
  | [i] =>
      df <- (if is_object (Frame.column_at df i)
             then codes <- call (CatCodes (Frame.column_at df i))
                                (pd_cat_codes L (Frame.column_at df i)) ;;
                  ret (Frame.setitem df i codes)
             else ret df) ;;
      let categorical_cols :=
        filter (Frame.has_column df) Config.categorical_columns in
      let feature_names :=
        filter (fun col => negb (String.eqb col target_column)) (columns df) in
      X <- match categorical_cols with
           | [] => ret (Frame.drop df target_column)
           | _ => call (GetDummies (Frame.drop df target_column) categorical_cols)
                       (pd_get_dummies L (Frame.drop df target_column) categorical_cols)
           end ;;
      let y := Frame.column_at df i in
      set_feature_names_ (columns X) ;;;
      ret (X, y, feature_names)
  | _ => raise (AttributeError "'DataFrame' object has no attribute 'dtype'")
  end.

(** Occurrences of a label in [y]. *)
Definition count_label (v : cell) (y : Series) : nat :=
  List.length (filter (cell_eqb v) y).

(** The distinct labels of [y], in order of first occurrence. *)
Fixpoint distinct (seen : list cell) (y : Series) : list cell :=
  match y with
  | [] => []
  | v :: rest => if existsb (cell_eqb v) seen then distinct seen rest
                 else v :: distinct (v :: seen) rest
  end.

(** [y.value_counts()] (pandas lists the labels by decreasing count; only
    the minimum of the values is used, which does not depend on the
    order). *)
Definition value_counts (y : Series) : list (cell * nat) :=
  map (fun v => (v, count_label v y)) (distinct [] y).

(** [y.value_counts(normalize=True)] *)
Definition value_counts_normalized (y : Series) : list (cell * Q) :=
  map (fun vc => (fst vc, (inject_Z (Z.of_nat (snd vc)) / inject_Z (Z.of_nat (List.length y)))%Q))
      (value_counts y).

(** Rounding to the nearest integer, ties to the even one ([numpy.rint]). *)
Definition round_half_even (x : Q) : Z :=
  let f := Qfloor x in
  match ((x - inject_Z f) ?= (1 # 2))%Q with
  | Lt => f
  | Gt => (f + 1)%Z
  | Eq => if Z.even f then f else (f + 1)%Z
  end.

(** [Series.round(1)] *)
Definition round1 (x : Q) : Q := (inject_Z (round_half_even (x * 10)) / 10)%Q.

(** Line 106: [y.value_counts(normalize=True).mul(100).round(1)]. *)
Definition class_distribution (y : Series) : list (cell * Q) :=
  map (fun vp => (fst vp, round1 (snd vp * 100)%Q)) (value_counts_normalized y).

Definition Qltb (x y : Q) : bool := negb (Qle_bool y x).

(** [Series.min()]; [None] stands for the NaN of an empty series. *)
Fixpoint series_min (l : list Q) : option Q :=
  match l with
  | [] => None
  | x :: rest => match series_min rest with
                 | None => Some x
                 | Some m => Some (if Qle_bool x m then x else m)
                 end
  end.

(** Line 111: [class_distribution.min() / 100 < 0.3]; a comparison with NaN
    is false. *)
Definition imbalanced (y : Series) : bool :=
  match series_min (map snd (class_distribution y)) with
  | None => false
  | Some m => Qltb (m / 100)%Q (3 # 10)%Q
  end.

(** [_handle_class_imbalance] *)
Definition _handle_class_imbalance (L : libs) (X : DataFrame) (y : Series)
  (random_state : Z) : M (DataFrame * Series) :=
  if imbalanced y
  then call (SmoteFitResample random_state X y) (imb_fit_resample L random_state X y)
  else ret (X, y).

(** [self.scaler.fit_transform(X)]: fit, store the state, transform. *)
Definition fit_transform (L : libs) (X : DataFrame) : M ndarray :=
  st <- call (ScalerFit X) (sk_scaler_fit L X) ;;
  set_scaler st ;;;
  call (ScalerTransform X) (sk_scaler_transform L st X).

(** [self.scaler.transform(X)] with the stored state. *)
Definition transform (L : libs) (X : DataFrame) : M ndarray :=
  fun w => match scaler w with
           | None => (Err (mk_exn "NotFittedError" "This StandardScaler instance is not fitted yet."), w)
           | Some st => call (ScalerTransform X) (sk_scaler_transform L st X) w
           end.

Definition loaded : Type := ndarray * ndarray * Series * Series * list string.

(** [load_data] *)
Definition load_data (L : libs) (file_path target_column : string)
  (test_size : Q) (random_state : Z) : M loaded :=
  data <- read_table L file_path ;;
  let target_column := py_lower L target_column in
  if negb (Frame.has_column data target_column)
  then raise (ValueError ("Target column '" ++ target_column
                          ++ "' not found in the dataset. Available columns: "
                          ++ py_repr_list L (columns data)))
  else
    ' (X, y, feature_names) <- _preprocess_data L data target_column ;;
    ' (X_train, X_test, y_train, y_test) <-
        call (TrainTestSplit X y test_size random_state)
             (sk_train_test_split L X y test_size random_state) ;;
    ' (X_train_resampled, y_train_resampled) <-
        _handle_class_imbalance L X_train y_train random_state ;;
    X_train_scaled <- fit_transform L X_train_resampled ;;
    X_test_scaled <- transform L X_test ;;
    ret (X_train_scaled, X_test_scaled, y_train_resampled, y_test, feature_names).

End DataLoader.

(* ===================================================================== *)
(** ** explainer.py *)
(* ===================================================================== *)

Module SHAPExplainer.

(** The attributes set by [__init__]. *)
Record self := mk_self {
  model : forest;
  feature_names : option (list string);
  expected_value : expected
}.

Definition __init__ (L : libs) (m : forest) (names : option (list string)) : M self :=
  ev <- call (TreeExplainer m) (shap_tree_explainer L m) ;;
  ret (mk_self m names ev).

Definition plt (L : libs) (op : plt_op) : M unit := call (Plt op) (plt_call L op).

(** [np.array(a).flatten()] *)
Definition flatten (a : nparray) : list Q :=
  match a with
  | Vec v => v
  | Mat m => List.concat m
  end.

(** Insertion of an index into a list of indices sorted by [key]. *)
Fixpoint insert_by (key : nat -> Q) (i : nat) (l : list nat) : list nat :=
  match l with
  | [] => [i]
  | j :: rest => if Qle_bool (key i) (key j) then i :: l
                 else j :: insert_by key i rest
  end.

(** [np.argsort(keys)]: the indices of [keys] by increasing key.  Equal keys
    keep their order here; numpy's default sort leaves their order open, so
    the statements below that name the indices charted hold for every
    order of the ties ([ranked_selection]). *)
Definition argsort (keys : list Q) : list nat :=
  fold_right (insert_by (fun i => nth i keys 0%Q)) [] (seq 0 (List.length keys)).

(** [len(self.feature_names)] *)
Definition len_names (names : option (list string)) : M nat :=
  match names with
  | Some l => ret (List.length l)
  | None => raise (mk_exn "TypeError" "object of type 'NoneType' has no len()")
  end.

(** [self.feature_names[i]] *)
Definition name_at (names : option (list string)) (i : nat) : M string :=
  match names with
  | Some l => match nth_error l i with
              | Some n => ret n
              | None => raise (IndexError "list index out of range")
              end
  | None => raise (mk_exn "TypeError" "'NoneType' object is not subscriptable")
  end.

(** [X_test_df.iloc[0, i]] formatted with [:.2f] *)
Definition iloc0 (X : pyval) (i : nat) : M Q :=
  match X with
  | PyFrame d =>
      match rows d with
      | [] => raise (IndexError "single positional indexer is out-of-bounds")
      | r :: _ =>
          match nth_error r i with
          | None => raise (IndexError "single positional indexer is out-of-bounds")
          | Some (Num q) => ret q
          | Some (Text _) =>
              raise (ValueError "Unknown format code 'f' for object of type 'str'")
          end
      end
  | PyArray _ => raise (AttributeError "'numpy.ndarray' object has no attribute 'iloc'")
  | PySeries _ => raise (mk_exn "IndexingError" "Too many indexers")
  | PyNames _ => raise (AttributeError "'list' object has no attribute 'iloc'")
  end.

(** A list comprehension whose body may raise. *)
Fixpoint comprehension {A B} (f : A -> M B) (l : list A) : M (list B) :=
  match l with
  | [] => ret []
  | x :: rest => y <- f x ;; ys <- comprehension f rest ;; ret (y :: ys)
  end.

Definition color_of (shap_values : list Q) (i : nat) : string :=
  if DataLoader.Qltb 0 (nth i shap_values 0%Q) then "#1f77b4" else "#ff7f0e".

(** [idx = np.argsort(-np.abs(shap_values))[:top_n]] *)
Definition top_indices (shap_values : list Q) (top_n : nat) : list nat :=
  firstn top_n (argsort (map (fun v => Qopp (Qabs v)) shap_values)).

(** [shap_values[idx]] *)
Definition take (shap_values : list Q) (idx : list nat) : list Q :=
  map (fun i => nth i shap_values 0%Q) idx.

Definition _create_first_prediction_plot (L : libs) (s : self)
  (shap_values : nparray) (X_test_df : pyval) (output_file : string) : M unit :=
  try_except
    (let shap_values := flatten shap_values in
     n <- len_names (feature_names s) ;;
     let idx := top_indices shap_values (Nat.min 10 n) in
     plt L (Figure 12 6) ;;;
     let colors := rev (map (color_of shap_values) idx) in
     plt L (Barh (seq 0 (List.length idx)) (rev (take shap_values idx)) colors) ;;;
     labels <- comprehension
                 (fun i => name <- name_at (feature_names s) i ;;
                           v <- iloc0 X_test_df i ;;
                           ret (TickNameValue name v)) idx ;;
     plt L (Yticks (seq 0 (List.length idx)) (rev labels)) ;;;
     plt L (Title "Top Features Affecting the First Prediction") ;;;
     plt L (Xlabel "SHAP Value (impact on model output)") ;;;
     plt L TightLayout ;;;
     plt L (Savefig output_file) ;;;
     plt L Close)
    (fun e => print ("Warning: Could not create first prediction plot: " ++ exn_msg e)).

Definition _create_waterfall_plot (L : libs) (s : self) (expected_value : Q)
  (shap_values : nparray) (X_test_df : pyval) (output_file : string) : M unit :=
  try_except
    (plt L (Figure 12 6) ;;;
     let shap_values := flatten shap_values in
     n <- len_names (feature_names s) ;;
     let idx := top_indices shap_values (Nat.min 10 n) in
     let colors := map (color_of shap_values) idx in
     plt L (Barh (seq 0 (List.length idx)) (rev (take shap_values idx)) (rev colors)) ;;;
     labels <- comprehension
                 (fun i => name <- name_at (feature_names s) i ;; ret (TickName name))
                 idx ;;
     plt L (Yticks (seq 0 (List.length idx)) (rev labels)) ;;;
     plt L (Title "Top SHAP Values for First Prediction") ;;;
     plt L (Xlabel "SHAP value (impact on model output)") ;;;
     plt L TightLayout ;;;
     plt L (Savefig output_file) ;;;
     plt L Close)
    (fun e => print ("Warning: Could not create waterfall plot: " ++ exn_msg e) ;;;
              call PrintExc (Ok tt)).

(** [X_test_df.shape[1]] *)
Definition shape1 (X : pyval) : M nat :=
  match X with
  | PyFrame d => ret (List.length (columns d))
  | PyArray a => ret (List.length (hd [] a))
  | PySeries _ => raise (IndexError "tuple index out of range")
  | PyNames _ => raise (AttributeError "'list' object has no attribute 'shape'")
  end.

(** [_create_summary_plot] ([bar = false]) and [_create_bar_plot]
    ([bar = true]); the figure is opened before the [try]. *)
Definition _create_summary_plot (L : libs) (s : self) (bar : bool)
  (shap_values : shap_out) (X_test_df : pyval) (output_file : string) : M unit :=
  plt L (Figure 12 (if bar then 6 else 8)) ;;;
  try_except
    (k <- shape1 X_test_df ;;
     call (SummaryPlot shap_values X_test_df (feature_names s) bar (Nat.min 15 k))
          (shap_summary_plot L shap_values X_test_df (feature_names s) bar (Nat.min 15 k)) ;;;
     plt L TightLayout ;;;
     plt L (Savefig output_file) ;;;
     plt L Close)
    (fun e => print ("Warning: Could not create "
                     ++ (if bar then "bar" else "summary") ++ " plot: " ++ exn_msg e)).

Definition _create_prediction_visualizations (L : libs) (s : self)
  (expected_value : expected) (shap_values_plot : shap_out) (X_test_df : pyval)
  (first_pred_file waterfall_file : string) : M unit :=
  try_except
    (let expected_value :=
       match expected_value with
       | ExpVector l => hd 0%Q l
       | ExpScalar q => q
       end in
     first_shap_values <-
       match shap_values_plot with
       | ShapList _ => raise (AttributeError "'list' object has no attribute 'shape'")
       | ShapArray (Vec v) => ret (Vec v)
       | ShapArray (Mat []) =>
           raise (IndexError "index 0 is out of bounds for axis 0 with size 0")
       | ShapArray (Mat (r :: _)) => ret (Vec r)
       end ;;
     _create_first_prediction_plot L s first_shap_values X_test_df first_pred_file ;;;
     _create_waterfall_plot L s expected_value first_shap_values X_test_df waterfall_file)
    (fun e => print ("Warning: Could not create prediction visualizations: " ++ exn_msg e) ;;;
              call PrintExc (Ok tt)).

Definition explain (L : libs) (s : self) (X X_test_df : pyval)
  (output_files : Config.file_paths) : M unit :=
  shap_values <- call (ShapValues (model s) X) (shap_shap_values L (model s) X) ;;
  ' (shap_values_plot, expected_value) <-
      match shap_values with
      | ShapList (_ :: a :: _) =>
          match expected_value s with
          | ExpVector (_ :: e :: _) => ret (ShapArray a, ExpScalar e)
          | ExpVector _ =>
              raise (IndexError "index 1 is out of bounds for axis 0 with size 1")
          | ExpScalar _ => raise (IndexError "invalid index to scalar variable.")
          end
      | _ => ret (shap_values, expected_value s)
      end ;;
  _create_summary_plot L s false shap_values_plot X_test_df (Config.shap_summary output_files) ;;;
  _create_summary_plot L s true shap_values_plot X_test_df (Config.shap_bar output_files) ;;;
  _create_prediction_visualizations L s expected_value shap_values_plot X_test_df
    (Config.shap_first_prediction output_files) (Config.shap_waterfall output_files).

End SHAPExplainer.

(* ===================================================================== *)
(** ** model.py and main.py *)
(* ===================================================================== *)

Module CreditRiskModel.

(** [train]: [self.model.fit(X_train, y_train)]. *)
Definition train (L : libs) (X_train y_train : pyval) : M forest :=
  call (ForestFit X_train y_train) (sk_forest_fit L X_train y_train).

(** [evaluate]: prediction, the printed report and the confusion-matrix
    image, all library work. *)
Definition evaluate (L : libs) (f : forest) (X_test y_test : pyval)
  (output_file : string) : M unit :=
  call (ForestEvaluate f X_test y_test output_file)
       (sk_forest_evaluate L f X_test y_test output_file).

End CreditRiskModel.

Module Main.

(** The parsed command line. *)
Record args := mk_args {
  data : string;
  test_size : Q;
  random_state : Z;
  max_display : Z
}.

Definition default_args : args :=
  mk_args "default of credit card clients.xls" Config.test_size
          Config.random_state Config.max_display.

(** The tuple [load_data] returns, as the sequence of its items. *)
Definition tuple_items (r : DataLoader.loaded) : list pyval :=
  let '(X_train_scaled, X_test_scaled, y_train, y_test, feature_names) := r in
  [PyArray X_train_scaled; PyArray X_test_scaled; PySeries y_train;
   PySeries y_test; PyNames feature_names].

Definition digit (n : nat) : string := String (ascii_of_nat (48 + n)) EmptyString.

Definition too_many_values : exn :=
  ValueError "too many values to unpack (expected 4)".

(** [a, b, c, d = items] *)
Definition unpack4 (items : list pyval) : result (pyval * pyval * pyval * pyval) :=
  match items with
  | [a; b; c; d] => Ok (a, b, c, d)
  | _ => if (4 <? List.length items)%nat then Err too_many_values
         else Err (ValueError ("not enough values to unpack (expected 4, got "
                               ++ digit (List.length items) ++ ")"))
  end.

Definition get_feature_names_ : M (option (list string)) :=
  fun w => (Ok (feature_names_ w), w).

(** The body of the [try] block.  Progress banners are not kept in the
    trace; warnings and the handler's lines are. *)
Definition pipeline (L : libs) (a : args) : M unit :=
  DataLoader.init ;;;
  r <- DataLoader.load_data L (data a) Config.target_column (test_size a) (random_state a) ;;
  ' (X_train, X_test, y_train, y_test) <- lift (unpack4 (tuple_items r)) ;;
  model <- CreditRiskModel.train L X_train y_train ;;
  CreditRiskModel.evaluate L model X_test y_test
    (Config.confusion_matrix Config.FILE_PATHS) ;;;
  names <- get_feature_names_ ;;
  explainer <- SHAPExplainer.__init__ L model names ;;
  SHAPExplainer.explain L explainer X_test X_test Config.FILE_PATHS.

(** What the [except Exception as e] handler prints. *)
Definition handler_lines (e : exn) : list string :=
  [Str.nl ++ "Error: " ++ exn_msg e;
   Str.nl ++ "Please check the following:";
   "1. The file path is correct";
   "2. The file is in a supported format (.csv, .xls, .xlsx)";
   "3. The specified target column exists in the data";
   "4. The data is properly formatted"].

Fixpoint print_all (lines : list string) : M unit :=
  match lines with
  | [] => ret tt
  | l :: rest => print l ;;; print_all rest
  end.

(** [main]: returns normally whatever happens inside the [try]. *)
Definition main (L : libs) (a : args) : M unit :=
  try_except (pipeline L a) (fun e => print_all (handler_lines e)).

(** The events of the stages that follow loading. *)
Definition is_stage_event (e : event) : bool :=
  match e with
  | ForestFit _ _ | ForestEvaluate _ _ _ _ | TreeExplainer _ | ShapValues _ _
  | SummaryPlot _ _ _ _ _ | Plt _ => true
  | _ => false
  end.

End Main.

(* ===================================================================== *)
(** ** The specification's vocabulary *)
(* ===================================================================== *)

Module Spec.

(** The recognized extensions: delimited text ([.csv]) and spreadsheet
    ([.xls], [.xlsx]), compared without regard to case. *)
Definition recognized_extension (path : string) : bool :=
  let p := Str.lower path in
  Str.endswith p ".csv" || Str.endswith p ".xls" || Str.endswith p ".xlsx".


(** The proportion of the smallest class, exactly. *)
Definition minority_proportion (y : Series) : option Q :=
  DataLoader.series_min (map snd (DataLoader.value_counts_normalized y)).

(** The neighbour requirement of the interpolation: [k_neighbors + 1] with
    the resampler's default [k_neighbors = 5]. *)
Definition neighbor_requirement : nat := 6.

(** The labels that occur in a partition. *)
Definition class_present (v : cell) (y : Series) : bool := existsb (cell_eqb v) y.

End Spec.

(** The arguments of the [ScalerFit] events of a trace. *)
Fixpoint scaler_fits (t : list event) : list DataFrame :=
  match t with
  | [] => []
  | ScalerFit X :: rest => X :: scaler_fits rest
  | _ :: rest => scaler_fits rest
  end.

(** [fmap] on results. *)
Definition result_map {A B} (f : A -> B) (r : result A) : result B :=
  match r with
  | Ok a => Ok (f a)
  | Err e => Err e
  end.

(* ===================================================================== *)
(** ** A small instance of the libraries, for concrete runs *)
(* ===================================================================== *)

Module Demo.

Definition num (z : Z) : cell := Num (inject_Z z).

(** Ten clients; the target column is the last one. *)
Definition clients : DataFrame :=
  mk_frame ["LIMIT_BAL"; "AGE"; "default payment next month"]
    [[num 20000; num 24; num 0]; [num 120000; num 26; num 1];
     [num 90000; num 34; num 0]; [num 50000; num 37; num 0];
     [num 50000; num 57; num 1]; [num 500000; num 29; num 0];
     [num 100000; num 23; num 1]; [num 140000; num 28; num 0];
     [num 20000; num 35; num 0]; [num 200000; num 34; num 1]].

(** A header with padded and upper-case names. *)
Definition spaced : DataFrame :=
  mk_frame [" Age "; "LIMIT_BAL"; "Default"]
    [[num 24; num 20000; num 1]; [num 26; num 120000; num 0]].

(** A header with a padded name that holds a capital A with diaeresis
    (the bytes 195, 132 in UTF-8). *)
Definition accented : DataFrame :=
  mk_frame [String " " (String (ascii_of_nat 195) (String (ascii_of_nat 132) "GE "));
            "LIMIT_BAL"; "Default"]
    [[num 24; num 20000; num 1]; [num 26; num 120000; num 0]].

(** Eight rows of class 0 followed by two of class 1. *)
Definition skewed : DataFrame :=
  mk_frame ["x"; "target"]
    [[num 1; num 0]; [num 2; num 0]; [num 3; num 0]; [num 4; num 0];
     [num 5; num 0]; [num 6; num 0]; [num 7; num 0]; [num 8; num 0];
     [num 9; num 1]; [num 10; num 1]].

Definition no_such_file (path : string) : exn :=
  mk_exn "FileNotFoundError" ("[Errno 2] No such file or directory: '" ++ path ++ "'").

Definition read_csv (path : string) : result DataFrame :=
  if String.eqb path "clients.csv" then Ok clients
  else if String.eqb path "spaced.csv" then Ok spaced
  else if String.eqb path "accented.csv" then Ok accented
  else if String.eqb path "skewed.csv" then Ok skewed
  else Err (no_such_file path).

(** [clients.dat] holds a workbook: the engines are handed the open file,
    not its name. *)
Definition read_excel (e : engine) (path : string) : result DataFrame :=
  if String.eqb path "clients.dat" then
    match e with
    | Openpyxl => Ok clients
    | Xlrd => Err (mk_exn "XLRDError" "Excel xlsx file; not supported")
    end
  else Err (no_such_file path).

Definition not_in_instance {A} (what : string) : result A :=
  Err (mk_exn "NotImplementedError" what).

(** The split of this instance keeps the file order: with
    [n_test = ceil(test_size * n)], the first [n - n_test] rows train and the
    remaining rows test.  A fraction outside (0, 1) is refused, as scikit-learn
    does. *)
Definition train_test_split (X : DataFrame) (y : Series) (test_size : Q)
  (random_state : Z) : result (DataFrame * DataFrame * Series * Series) :=
  let n := inject_Z (Z.of_nat (List.length y)) in
  if Qle_bool test_size 0 || Qle_bool 1 test_size
  then Err (ValueError "test_size should be a float in the (0, 1) range")
  else
    let n_test := Z.to_nat (Qceiling (test_size * n)) in
    let n_train := (List.length y - n_test)%nat in
    if (n_train =? 0)%nat
    then Err (ValueError "the resulting train set will be empty")
    else Ok (mk_frame (columns X) (firstn n_train (rows X)),
             mk_frame (columns X) (firstn n_test (skipn n_train (rows X))),
             firstn n_train y,
             firstn n_test (skipn n_train y)).

(** The resampler of this instance: it refuses a class with fewer samples
    than the neighbour search needs, the way the library's neighbour search
    does, and otherwise leaves the generation of samples out. *)
Definition fit_resample (random_state : Z) (X : DataFrame) (y : Series)
  : result (DataFrame * Series) :=
  if existsb (fun vc => (snd vc <? Spec.neighbor_requirement)%nat)
             (DataLoader.value_counts y)
  then Err (ValueError "Expected n_neighbors <= n_samples_fit")
  else not_in_instance "sample generation".

Definition as_number (c : cell) : option Q :=
  match c with Num q => Some q | Text _ => None end.

Fixpoint numbers (r : list cell) : option (list Q) :=
  match r with
  | [] => Some []
  | c :: rest => match as_number c, numbers rest with
                 | Some q, Some qs => Some (q :: qs)
                 | _, _ => None
                 end
  end.

Fixpoint matrix (rs : list (list cell)) : option ndarray :=
  match rs with
  | [] => Some []
  | r :: rest => match numbers r, matrix rest with
                 | Some q, Some qs => Some (q :: qs)
                 | _, _ => None
                 end
  end.

Definition Qsum (l : list Q) : Q := fold_right Qplus 0%Q l.

Definition mean (l : list Q) : Q := (Qsum l / inject_Z (Z.of_nat (List.length l)))%Q.

Definition variance (l : list Q) : Q :=
  mean (map (fun x => ((x - mean l) * (x - mean l))%Q) l).

(** Square root to six decimals. *)
Definition sqrt6 (q : Q) : Q :=
  Z.sqrt (Qnum q * 10 ^ 12 / Zpos (Qden q)) # 10 ^ 6.

Definition scale_of (l : list Q) : Q :=
  let s := sqrt6 (variance l) in
  if Qeq_bool s 0 then 1%Q else s.

Definition column (m : ndarray) (j : nat) : list Q := map (fun r => nth j r 0%Q) m.

Definition scaler_fit (X : DataFrame) : result scaler_state :=
  match matrix (rows X) with
  | None => Err (ValueError "could not convert string to float")
  | Some m =>
      let js := seq 0 (List.length (columns X)) in
      Ok (mk_scaler (map (fun j => mean (column m j)) js)
                    (map (fun j => scale_of (column m j)) js))
  end.

Fixpoint scale_row (means scales row : list Q) : list Q :=
  match means, scales, row with
  | mu :: ms, s :: ss, x :: xs => ((x - mu) / s)%Q :: scale_row ms ss xs
  | _, _, _ => []
  end.

Definition scaler_transform (st : scaler_state) (X : DataFrame) : result ndarray :=
  match matrix (rows X) with
  | None => Err (ValueError "could not convert string to float")
  | Some m =>
      if (List.length (columns X) =? List.length (mean_ st))%nat
      then Ok (map (scale_row (mean_ st) (scale_ st)) m)
      else Err (ValueError "X has a different number of features than the scaler was fitted with")
  end.

(** The case mapping of this instance covers ASCII and the letters of the
    Latin-1 supplement in UTF-8: the second byte of a capital from A grave
    to Thorn (195 followed by 128 to 158, the multiplication sign 151
    apart) moves up by 32. *)
Fixpoint lower_latin1 (s : string) : string :=
  match s with
  | EmptyString => EmptyString
  | String c s' =>
      match s' with
      | EmptyString => String (Str.lower_ascii c) EmptyString
      | String d s'' =>
          let n := nat_of_ascii d in
          if (nat_of_ascii c =? 195)%nat && (128 <=? n)%nat && (n <=? 158)%nat
             && negb (n =? 151)%nat
          then String c (String (ascii_of_nat (n + 32)) (lower_latin1 s''))
          else String (Str.lower_ascii c) (lower_latin1 s')
      end
  end.

Definition quote : ascii := ascii_of_nat 39.
Definition double_quote : ascii := ascii_of_nat 34.
Definition backslash : ascii := ascii_of_nat 92.

Definition hex_digit (n : nat) : ascii :=
  ascii_of_nat (if (n <? 10)%nat then 48 + n else 87 + n).

(** One character inside the quotes of a [repr]; characters beyond ASCII
    are taken for printable. *)
Definition repr_char (q c : ascii) : string :=
  let n := nat_of_ascii c in
  if Ascii.eqb c q || Ascii.eqb c backslash then String backslash (String c EmptyString)
  else if (n =? 9)%nat then String backslash "t"
  else if (n =? 10)%nat then String backslash "n"
  else if (n =? 13)%nat then String backslash "r"
  else if (n <? 32)%nat || (n =? 127)%nat
       then String backslash
              (String "x" (String (hex_digit (n / 16)) (String (hex_digit (n mod 16)) EmptyString)))
  else String c EmptyString.

Fixpoint repr_chars (q : ascii) (s : string) : string :=
  match s with
  | EmptyString => EmptyString
  | String c s' => repr_char q c ++ repr_chars q s'
  end.

Fixpoint contains (c : ascii) (s : string) : bool :=
  match s with
  | EmptyString => false
  | String d s' => Ascii.eqb c d || contains c s'
  end.

(** [repr(s)]: single quotes, unless [s] holds a single quote and no double
    one. *)
Definition repr_str (s : string) : string :=
  let q := if contains quote s && negb (contains double_quote s)
           then double_quote else quote in
  String q (repr_chars q s ++ String q EmptyString).

Definition repr_names (items : list string) : string :=
  "[" ++ Str.join ", " (map repr_str items) ++ "]".

Definition lib : libs :=
  mk_libs read_csv read_excel
    (fun _ => not_in_instance "cat.codes")
    (fun _ _ => not_in_instance "get_dummies")
    train_test_split fit_resample scaler_fit scaler_transform
    (fun X y => Ok (FittedOn X y))
    (fun _ _ _ _ => Ok tt)
    (fun _ => Ok (ExpVector [1 # 2; 1 # 2]%Q))
    (fun _ _ => not_in_instance "shap_values")
    (fun _ _ _ _ _ => Ok tt)
    (fun _ => Ok tt)
    lower_latin1 repr_names.

(** The state before anything has run. *)
Definition w0 : world := mk_world [] None None.

Definition dummy_forest : forest := FittedOn (PyNames []) (PyNames []).

(** An explainer holding three names. *)
Definition three_names : SHAPExplainer.self :=
  SHAPExplainer.mk_self dummy_forest (Some ["limit_bal"; "age"; "bill_amt1"])
    (ExpScalar 0).

(** Nine labels 0 and a single label 1. *)
Definition one_in_ten : Series :=
  [num 0; num 0; num 0; num 0; num 0; num 0; num 0; num 0; num 0; num 1].

End Demo.

(** The table the parser chosen by [read_file] yields for a path. *)
Definition parsed (L : libs) (file_path : string) (t : DataFrame) : Prop :=
  if Str.endswith (Str.lower file_path) ".csv"
  then pd_read_csv L file_path = Ok t
  else pd_read_excel L Openpyxl file_path = Ok t \/
       (is_ok (pd_read_excel L Openpyxl file_path) = false /\
        pd_read_excel L Xlrd file_path = Ok t).

(** The events [load_data] can log before it reaches the scaler. *)
Definition is_prep_event (e : event) : bool :=
  match e with
  | ReadCsv _ | ReadExcel _ _ | CatCodes _ | GetDummies _ _
  | TrainTestSplit _ _ _ _ | SmoteFitResample _ _ _ => true
  | _ => false
  end.

(** The events of [load_data] as a whole. *)
Definition is_loader_event (e : event) : bool :=
  match e with
  | ScalerFit _ | ScalerTransform _ => true
  | _ => is_prep_event e
  end.

Local Open Scope list_scope.

(** [w'] continues [w] with events that all satisfy [P]. *)
Definition extends (P : event -> bool) (w w' : world) : Prop :=
  exists new, trace w' = trace w ++ new /\ forallb P new = true.

(** A computation that only logs events satisfying [P]. *)
Definition emits_only {A} (P : event -> bool) (c : M A) : Prop :=
  forall w r w', c w = (r, w') -> extends P w w'.

(** The world after the three scaler calls that end [load_data]. *)
Definition after_scaling (X_res X_test : DataFrame) (st : scaler_state)
  (w : world) : world :=
  emit (ScalerTransform X_test)
    (emit (ScalerTransform X_res)
       (mk_world (trace (emit (ScalerFit X_res) w)) (Some st) (feature_names_ w))).

(** What C7 asks of a successful [load_data]: the partitions come from the
    split, the balancer turns the training partition into [X_res], the one
    and only [fit] of the run is on [X_res], its state is the one stored in
    the loader, and both returned matrices are transformed with it. *)
Definition scaler_fitted_on_balanced_training (L : libs) (ts : Q) (rs : Z)
  (w w' : world) (r : DataLoader.loaded) : Prop :=
  let '(X_train_scaled, X_test_scaled, y_train, y_test, _) := r in
  exists X y X_train X_test y_split X_res st pre,
    sk_train_test_split L X y ts rs = Ok (X_train, X_test, y_split, y_test) /\
    (forall w0, fst (DataLoader._handle_class_imbalance L X_train y_split rs w0)
                = Ok (X_res, y_train)) /\
    sk_scaler_fit L X_res = Ok st /\
    scaler w' = Some st /\
    sk_scaler_transform L st X_res = Ok X_train_scaled /\
    sk_scaler_transform L st X_test = Ok X_test_scaled /\
    trace w' = trace w ++ pre ++
               [ScalerFit X_res; ScalerTransform X_res; ScalerTransform X_test] /\
    scaler_fits pre = [] /\
    scaler_fits (pre ++ [ScalerFit X_res; ScalerTransform X_res; ScalerTransform X_test])
      = [X_res].

(** What C7 asks of any run of [load_data], failed ones included: whatever
    the run logged, the scaler was fitted either not at all or once, on the
    training features the balancer returned. *)
Definition fits_only_on_balanced_training (L : libs) (ts : Q) (rs : Z)
  (w w' : world) : Prop :=
  exists new,
    trace w' = trace w ++ new /\
    (scaler_fits new = [] \/
     exists X y X_train X_test y_split y_test X_res y_res,
       sk_train_test_split L X y ts rs = Ok (X_train, X_test, y_split, y_test) /\
       (forall w0, fst (DataLoader._handle_class_imbalance L X_train y_split rs w0)
                   = Ok (X_res, y_res)) /\
       scaler_fits new = [X_res]).

(** What C8 asks: the five components are the scaled training matrix, the
    scaled test matrix, the balanced training target, the test target of the
    split, and the names of the non-target columns of the table as read. *)
Definition five_tuple_with_feature_names (L : libs) (fp tc : string) (ts : Q)
  (rs : Z) (w : world) (r : DataLoader.loaded) : Prop :=
  let '(X_train_scaled, X_test_scaled, y_train, y_test, feature_names) := r in
  exists data X y X_train X_test y_split X_res st,
    fst (DataLoader.read_table L fp w) = Ok data /\
    feature_names
      = filter (fun col => negb (String.eqb col (py_lower L tc))) (columns data) /\
    List.length feature_names = (List.length (columns data) - 1)%nat /\
    (forall w0, fst (DataLoader._preprocess_data L data (py_lower L tc) w0)
                = Ok (X, y, feature_names)) /\
    sk_train_test_split L X y ts rs = Ok (X_train, X_test, y_split, y_test) /\
    (forall w0, fst (DataLoader._handle_class_imbalance L X_train y_split rs w0)
                = Ok (X_res, y_train)) /\
    sk_scaler_fit L X_res = Ok st /\
    sk_scaler_transform L st X_res = Ok X_train_scaled /\
    sk_scaler_transform L st X_test = Ok X_test_scaled.

(** "Fails with the error [name], raised by a check of its own": the run
    ends in that exception and no library call was made on the way. *)
Definition rejected_by_validation {A} (name : string) (w : world)
  (out : result A * world) : Prop :=
  exists msg, fst out = Err (mk_exn name msg) /\ trace (snd out) = trace w.

(* ===================================================================== *)
(** ** explore_data.py, the cleaning of the column names *)
(* ===================================================================== *)

Module Explore.

(** The cleaning is written out for names of ASCII characters, which is
    what the headers of the data set are: beyond ASCII, [str.strip()] also
    removes the white space of Unicode and [str.lower()] lowers its
    capitals.  The ASCII characters [str.strip()] takes for whitespace are
    tab to carriage return, the four separators 28 to 31, and the space. *)
Definition is_whitespace (c : ascii) : bool :=
  let n := nat_of_ascii c in
  (n =? 32)%nat || ((9 <=? n)%nat && (n <=? 13)%nat) || ((28 <=? n)%nat && (n <=? 31)%nat).

Fixpoint lstrip (s : string) : string :=
  match s with
  | EmptyString => EmptyString
  | String c s' => if is_whitespace c then lstrip s' else s
  end.

Fixpoint rstrip (s : string) : string :=
  match s with
  | EmptyString => EmptyString
  | String c s' =>
      match rstrip s' with
      | EmptyString => if is_whitespace c then EmptyString else String c EmptyString
      | r => String c r
      end
  end.

(** [s.strip()] *)
Definition strip (s : string) : string := rstrip (lstrip s).

Definition replace_space_ascii (c : ascii) : ascii :=
  if (nat_of_ascii c =? 32)%nat then "_"%char else c.

(** [s.replace(' ', '_')] *)
Fixpoint replace_spaces (s : string) : string :=
  match s with
  | EmptyString => EmptyString
  | String c s' => String (replace_space_ascii c) (replace_spaces s')
  end.

(** Line 21, for one name of ASCII characters:
    [.str.strip().str.lower().str.replace(' ', '_')]. *)
Definition clean_name (s : string) : string :=
  replace_spaces (Str.lower (strip s)).

(** Line 21: [df.columns = df.columns.str.strip()...]. *)
Definition clean_columns (df : DataFrame) : DataFrame :=
  Frame.set_columns df (map clean_name (columns df)).

End Explore.

(** A string with a function applied to each of its characters. *)
Fixpoint char_map (f : ascii -> ascii) (s : string) : string :=
  match s with
  | EmptyString => EmptyString
  | String c s' => String (f c) (char_map f s')
  end.

(** A string that does not begin with whitespace. *)
Definition head_clean (s : string) : bool :=
  match s with
  | EmptyString => true
  | String c _ => negb (Explore.is_whitespace c)
  end.

(** A string in which a given character occurs. *)
Fixpoint has_char (p : ascii -> bool) (s : string) : bool :=
  match s with
  | EmptyString => false
  | String c s' => p c || has_char p s'
  end.

Definition is_upper (c : ascii) : bool :=
  let n := nat_of_ascii c in (65 <=? n)%nat && (n <=? 90)%nat.

Definition is_blank (c : ascii) : bool := (nat_of_ascii c =? 32)%nat.

(** The events [load_data] can log before it calls the splitter. *)
Definition is_pre_split_event (e : event) : bool :=
  match e with
  | ReadCsv _ | ReadExcel _ _ | CatCodes _ | GetDummies _ _ => true
  | _ => false
  end.

Definition is_scaler_event (e : event) : bool :=
  match e with
  | ScalerFit _ | ScalerTransform _ => true
  | _ => false
  end.

(** The arguments of the resampler calls of a trace. *)
Fixpoint smote_calls (t : list event) : list (Z * DataFrame * Series) :=
  match t with
  | [] => []
  | SmoteFitResample rs X y :: rest => (rs, X, y) :: smote_calls rest
  | _ :: rest => smote_calls rest
  end.

(** The files written by [savefig] in a trace. *)
Fixpoint saved_files (t : list event) : list string :=
  match t with
  | [] => []
  | Plt (Savefig path) :: rest => path :: saved_files rest
  | _ :: rest => saved_files rest
  end.

(** Index [i] does not come after index [j] in the order of the keys. *)
Definition key_before (key : nat -> Q) (i j : nat) : Prop := (key i <= key j)%Q.

(** The magnitude of the attribution at an index. *)
Definition magnitude (shap_values : list Q) (i : nat) : Q :=
  Qabs (nth i shap_values 0%Q).

(** What [np.argsort(-np.abs(shap_values))[:top_n]] is, whichever way the
    sort orders attributions of equal magnitude: the first [top_n] entries
    of an arrangement of all the indices by non-increasing magnitude. *)
Definition ranked_selection (shap_values : list Q) (top_n : nat) (idx : list nat) : Prop :=
  exists order,
    Permutation order (seq 0 (List.length shap_values)) /\
    StronglySorted (fun i j => (magnitude shap_values j <= magnitude shap_values i)%Q) order /\
    idx = firstn top_n order.

(** The choice of class 1 in [explain] goes through: either the attributions
    are not a list of two or more arrays, or the expected values have a
    second entry. *)
Definition selection_goes_through (s : SHAPExplainer.self) (out : shap_out) : Prop :=
  match out with
  | ShapList (_ :: _ :: _) =>
      match SHAPExplainer.expected_value s with
      | ExpVector (_ :: _ :: _) => True
      | _ => False
      end
  | _ => True
  end.

(** More files for the instance of the libraries. *)
Module Cases.

(** A header in which two names differ by case only. *)
Definition colliding : DataFrame :=
  mk_frame ["Default"; "AGE"; "default"]
    [[Demo.num 0; Demo.num 24; Demo.num 1]; [Demo.num 1; Demo.num 26; Demo.num 0]].

(** Two rows of class 1 among ten, one of them among the first eight. *)
Definition rare : DataFrame :=
  mk_frame ["x"; "target"]
    [[Demo.num 1; Demo.num 0]; [Demo.num 2; Demo.num 0]; [Demo.num 3; Demo.num 0];
     [Demo.num 4; Demo.num 1]; [Demo.num 5; Demo.num 0]; [Demo.num 6; Demo.num 0];
     [Demo.num 7; Demo.num 0]; [Demo.num 8; Demo.num 0]; [Demo.num 9; Demo.num 0];
     [Demo.num 10; Demo.num 1]].

Definition read_csv (path : string) : result DataFrame :=
  if String.eqb path "collide.csv" then Ok colliding
  else if String.eqb path "rare.csv" then Ok rare
  else Demo.read_csv path.

Definition lib : libs :=
  mk_libs read_csv (pd_read_excel Demo.lib) (pd_cat_codes Demo.lib)
    (pd_get_dummies Demo.lib) (sk_train_test_split Demo.lib)
    (imb_fit_resample Demo.lib) (sk_scaler_fit Demo.lib)
    (sk_scaler_transform Demo.lib) (sk_forest_fit Demo.lib)
    (sk_forest_evaluate Demo.lib) (shap_tree_explainer Demo.lib)
    (shap_shap_values Demo.lib) (shap_summary_plot Demo.lib) (plt_call Demo.lib)
    (str_lower_unicode Demo.lib) (repr_escaped Demo.lib).

(** Libraries whose attributions come as one array per class and whose
    summary plot fails to render. *)
Definition charting : libs :=
  mk_libs read_csv (pd_read_excel Demo.lib) (pd_cat_codes Demo.lib)
    (pd_get_dummies Demo.lib) (sk_train_test_split Demo.lib)
    (imb_fit_resample Demo.lib) (sk_scaler_fit Demo.lib)
    (sk_scaler_transform Demo.lib) (sk_forest_fit Demo.lib)
    (sk_forest_evaluate Demo.lib) (shap_tree_explainer Demo.lib)
    (fun _ _ => Ok (ShapList [Mat [[0; 0]%Q]; Mat [[1 # 2; - (1 # 5)]%Q]]))
    (fun _ _ _ _ _ => Err (mk_exn "RuntimeError" "rendering failed"))
    (plt_call Demo.lib) (str_lower_unicode Demo.lib) (repr_escaped Demo.lib).

(** An explainer for two classes and two features. *)
Definition two_classes : SHAPExplainer.self :=
  SHAPExplainer.mk_self Demo.dummy_forest (Some ["limit_bal"; "age"])
    (ExpVector [1 # 2; 1 # 2]%Q).

End Cases.

(* ===================================================================== *)
(** ** Rounding to one decimal *)
(* ===================================================================== *)

Section Rounding.

Import DataLoader.
Local Open Scope Q_scope.

Lemma floor_bounds (x : Q) :
  inject_Z (Qfloor x) <= x /\ x < inject_Z (Qfloor x) + 1.
Proof.
  split; [apply Qfloor_le|].
  pose proof (Qlt_floor x) as H. rewrite inject_Z_plus in H. exact H.
Qed.

Lemma inject_Z_pred (k : Z) : inject_Z (k - 1) = inject_Z k - 1.
Proof.
  unfold Z.sub. rewrite inject_Z_plus, inject_Z_opp. reflexivity.
Qed.

Lemma round_half_even_cases (x : Q) :
  round_half_even x = Qfloor x \/ round_half_even x = (Qfloor x + 1)%Z.
Proof.
  unfold round_half_even.
  destruct (x - inject_Z (Qfloor x) ?= 1 # 2); auto.
  destruct (Z.even (Qfloor x)); auto.
Qed.

(** A value at or above an integer rounds to at least that integer. *)
Lemma round_half_even_ge (x : Q) (k : Z) :
  inject_Z k <= x -> (k <= round_half_even x)%Z.
Proof.
  intros H.
  assert (Hf : (k <= Qfloor x)%Z).
  { rewrite <- (Qfloor_Z k). now apply Qfloor_resp_le. }
  destruct (round_half_even_cases x) as [-> | ->]; lia.
Qed.

(** A value below an integer rounds to at most that integer. *)
Lemma round_half_even_le (x : Q) (k : Z) :
  x < inject_Z k -> (round_half_even x <= k)%Z.
Proof.
  intros H.
  destruct (floor_bounds x) as [Hl _].
  assert (Hf : (Qfloor x < k)%Z).
  { rewrite Zlt_Qlt. eapply Qle_lt_trans; eauto. }
  destruct (round_half_even_cases x) as [-> | ->]; lia.
Qed.

(** From half a unit below an even integer on, rounding reaches it. *)
Lemma round_half_even_from_half (x : Q) (k : Z) :
  Z.even k = true -> inject_Z k - (1 # 2) <= x -> (k <= round_half_even x)%Z.
Proof.
  intros Hk H.
  destruct (floor_bounds x) as [Hl Hu].
  assert (Hf : (k - 1 <= Qfloor x)%Z).
  { assert (inject_Z (k - 1) < inject_Z (Qfloor x + 1)).
    { rewrite inject_Z_plus, inject_Z_pred. change (inject_Z 1) with 1. lra. }
    rewrite <- Zlt_Qlt in H0. lia. }
  destruct (Z.eq_dec (Qfloor x) (k - 1)) as [E | E].
  - unfold round_half_even.
    assert (Hx : 1 # 2 <= x - inject_Z (Qfloor x)).
    { rewrite E, inject_Z_pred. lra. }
    destruct (x - inject_Z (Qfloor x) ?= 1 # 2) eqn:C.
    + rewrite E. replace (Z.even (k - 1)) with false; [lia|].
      rewrite Z.even_sub, Hk. reflexivity.
    + apply Qlt_alt in C. lra.
    + lia.
  - destruct (round_half_even_cases x) as [-> | ->]; lia.
Qed.

(** Strictly below half a unit under an integer, rounding stays below it. *)
Lemma round_half_even_below_half (x : Q) (k : Z) :
  x < inject_Z k - (1 # 2) -> (round_half_even x < k)%Z.
Proof.
  intros H.
  destruct (floor_bounds x) as [Hl Hu].
  assert (Hf : (Qfloor x < k)%Z).
  { rewrite Zlt_Qlt. lra. }
  destruct (Z.eq_dec (Qfloor x) (k - 1)) as [E | E].
  - unfold round_half_even.
    assert (Hx : x - inject_Z (Qfloor x) < 1 # 2).
    { rewrite E, inject_Z_pred. lra. }
    destruct (x - inject_Z (Qfloor x) ?= 1 # 2) eqn:C.
    + apply Qeq_alt in C. lra.
    + lia.
    + apply Qgt_alt in C. lra.
  - destruct (round_half_even_cases x) as [-> | ->]; lia.
Qed.

Lemma round1_ge_30 (x : Q) : 30 <= x -> 30 <= round1 x.
Proof.
  intros H. unfold round1.
  assert (Hr : (300 <= round_half_even (x * 10))%Z).
  { apply round_half_even_ge. change (inject_Z 300) with 300. lra. }
  rewrite Zle_Qle in Hr. change (inject_Z 300) with 300 in Hr.
  apply Qle_shift_div_l; lra.
Qed.

Lemma round1_from_2995 (x : Q) : 2995 # 100 <= x -> 30 <= round1 x.
Proof.
  intros H. unfold round1.
  assert (Hr : (300 <= round_half_even (x * 10))%Z).
  { apply round_half_even_from_half; [reflexivity|].
    change (inject_Z 300) with 300. lra. }
  rewrite Zle_Qle in Hr. change (inject_Z 300) with 300 in Hr.
  apply Qle_shift_div_l; lra.
Qed.

Lemma round1_le_30 (x : Q) : x < 30 -> round1 x <= 30.
Proof.
  intros H. unfold round1.
  assert (Hr : (round_half_even (x * 10) <= 300)%Z).
  { apply round_half_even_le. change (inject_Z 300) with 300. lra. }
  rewrite Zle_Qle in Hr. change (inject_Z 300) with 300 in Hr.
  apply Qle_shift_div_r; lra.
Qed.

Lemma round1_lt_30 (x : Q) : x < 2995 # 100 -> round1 x < 30.
Proof.
  intros H. unfold round1.
  assert (Hr : (round_half_even (x * 10) < 300)%Z).
  { apply round_half_even_below_half. change (inject_Z 300) with 300. lra. }
  rewrite Zlt_Qlt in Hr. change (inject_Z 300) with 300 in Hr.
  apply Qlt_shift_div_r; lra.
Qed.

End Rounding.

(* ===================================================================== *)
(** ** The class balancer *)
(* ===================================================================== *)

Section Balancer.

Import DataLoader.
Local Open Scope Q_scope.

Lemma series_min_le (l : list Q) (m x : Q) :
  series_min l = Some m -> In x l -> m <= x.
Proof.
  revert m x. induction l as [|a rest IH]; intros m x Hm Hin; [inversion Hin|].
  simpl in Hm. destruct (series_min rest) as [m0|] eqn:Hr.
  - injection Hm as <-. destruct (Qle_bool a m0) eqn:C.
    + apply Qle_bool_iff in C. destruct Hin as [<- | Hin]; [lra|].
      specialize (IH m0 x eq_refl Hin). lra.
    + assert (~ a <= m0) by (intros K; apply Qle_bool_iff in K; congruence).
      destruct Hin as [<- | Hin]; [lra|]. exact (IH m0 x eq_refl Hin).
  - injection Hm as <-. destruct rest; [|simpl in Hr; destruct (series_min rest); discriminate].
    destruct Hin as [<- | []]. lra.
Qed.

Lemma series_min_In (l : list Q) (m : Q) : series_min l = Some m -> In m l.
Proof.
  revert m. induction l as [|a rest IH]; intros m Hm; [discriminate|].
  simpl in Hm. destruct (series_min rest) as [m0|].
  - injection Hm as <-. destruct (Qle_bool a m0); [now left | right; now apply IH].
  - injection Hm as <-. now left.
Qed.

Lemma series_min_ge (l : list Q) (m b : Q) :
  series_min l = Some m -> (forall x, In x l -> b <= x) -> b <= m.
Proof.
  intros Hm Hall. apply Hall. now apply series_min_In.
Qed.

Lemma series_min_nonempty (l : list Q) (x : Q) :
  In x l -> exists m, series_min l = Some m.
Proof.
  destruct l as [|a rest]; [intros []|]. intros _. simpl.
  destruct (series_min rest); eauto.
Qed.

(** The rounded percentages are the exact proportions, times 100, rounded. *)
Lemma class_distribution_values (y : Series) :
  map snd (class_distribution y) =
  map (fun p => round1 (p * 100)) (map snd (value_counts_normalized y)).
Proof.
  unfold class_distribution. rewrite !map_map. reflexivity.
Qed.

Lemma Qltb_false (a b : Q) : b <= a -> Qltb a b = false.
Proof.
  intros H. unfold Qltb. apply Qle_bool_iff in H. now rewrite H.
Qed.

Lemma Qltb_true (a b : Q) : a < b -> Qltb a b = true.
Proof.
  intros H. unfold Qltb. destruct (Qle_bool b a) eqn:C; [|reflexivity].
  apply Qle_bool_iff in C. lra.
Qed.

(** When every class has at least [lo] of the rows and [lo * 100] rounds to
    30.0 or more, the decision is "balanced". *)
Lemma balanced_when_all_round_up (y : Series) (p lo : Q) :
  Spec.minority_proportion y = Some p -> lo <= p ->
  (forall q, lo <= q -> 30 <= round1 (q * 100)) ->
  (forall m, series_min (map snd (class_distribution y)) = Some m -> 30 <= m) /\
  imbalanced y = false.
Proof.
  intros Hp Hlo Hround.
  assert (Hall : forall m, series_min (map snd (class_distribution y)) = Some m -> 30 <= m).
  { intros m Hm. apply (series_min_ge _ _ _ Hm). intros x Hx.
    rewrite class_distribution_values in Hx. apply in_map_iff in Hx.
    destruct Hx as [q [<- Hq]]. apply Hround.
    pose proof (series_min_le _ _ _ Hp Hq). lra. }
  split; [exact Hall|].
  unfold imbalanced. destruct (series_min (map snd (class_distribution y))) as [m|] eqn:Hm;
    [|reflexivity].
  apply Qltb_false. specialize (Hall m eq_refl). apply Qle_shift_div_l; lra.
Qed.

(** A count against the number of rows, as an inequality of integers. *)
Lemma fraction_lt (c n a : Z) (b : positive) :
  (0 < n)%Z ->
  (inject_Z c / inject_Z n < a # b <-> (c * Zpos b < a * n)%Z).
Proof.
  intros Hn. destruct n as [|n|n]; try lia.
  unfold Qlt, Qdiv, Qmult, Qinv, inject_Z. simpl. lia.
Qed.

Lemma value_counts_nonempty (y : Series) (v : cell) (c : nat) :
  In (v, c) (value_counts y) -> (0 < List.length y)%nat.
Proof.
  destruct y; simpl; [intros []|lia].
Qed.

(** A class with fewer than six rows and less than 30% of them makes the
    rounded minimum fall below 30.0. *)
Lemma small_class_is_imbalanced (y : Series) (v : cell) (c : nat) :
  In (v, c) (value_counts y) -> (c < Spec.neighbor_requirement)%nat ->
  inject_Z (Z.of_nat c) / inject_Z (Z.of_nat (List.length y)) < 3 # 10 ->
  imbalanced y = true.
Proof.
  intros Hin Hc Hp. unfold Spec.neighbor_requirement in Hc.
  pose proof (value_counts_nonempty _ _ _ Hin) as Hn.
  assert (Hz : (0 < Z.of_nat (List.length y))%Z) by lia.
  pose proof (proj1 (fraction_lt _ _ 3 10 Hz) Hp) as Hi.
  set (r := inject_Z (Z.of_nat c) / inject_Z (Z.of_nat (List.length y))) in *.
  assert (Hr : r < 2995 # 10000).
  { apply (proj2 (fraction_lt _ _ 2995 10000 Hz)). lia. }
  assert (Hx : In (round1 (r * 100)) (map snd (class_distribution y))).
  { rewrite class_distribution_values.
    apply (in_map (fun p => round1 (p * 100))).
    unfold value_counts_normalized. rewrite map_map. simpl.
    apply in_map_iff. exists (v, c). split; [reflexivity | exact Hin]. }
  unfold imbalanced. destruct (series_min_nonempty _ _ Hx) as [m Hm]. rewrite Hm.
  pose proof (series_min_le _ _ _ Hm Hx) as Hle.
  assert (round1 (r * 100) < 30) by (apply round1_lt_30; lra).
  apply Qltb_true. apply Qlt_shift_div_r; lra.
Qed.

End Balancer.

(* ===================================================================== *)
(** ** Traces *)
(* ===================================================================== *)

Section Traces.

Variable P : event -> bool.

Lemma extends_refl (w : world) : extends P w w.
Proof. exists []. now rewrite app_nil_r. Qed.

Lemma extends_same_trace (w w' : world) : trace w' = trace w -> extends P w w'.
Proof. intros H. exists []. now rewrite app_nil_r. Qed.

Lemma extends_trans (w1 w2 w3 : world) :
  extends P w1 w2 -> extends P w2 w3 -> extends P w1 w3.
Proof.
  intros [n1 [H1 F1]] [n2 [H2 F2]]. exists (n1 ++ n2). split.
  - now rewrite H2, H1, app_assoc.
  - now rewrite forallb_app, F1, F2.
Qed.

Lemma extends_emit (e : event) (w : world) : P e = true -> extends P w (emit e w).
Proof. intros H. exists [e]. simpl. now rewrite H. Qed.

Lemma emits_only_ret {A} (a : A) : emits_only P (ret a).
Proof. intros w r w' H. injection H as _ <-. apply extends_refl. Qed.

Lemma emits_only_raise {A} (e : exn) : emits_only P (@raise A e).
Proof. intros w r w' H. injection H as _ <-. apply extends_refl. Qed.

Lemma emits_only_lift {A} (x : result A) : emits_only P (lift x).
Proof. intros w r w' H. injection H as _ <-. apply extends_refl. Qed.

Lemma emits_only_call {A} (e : event) (x : result A) :
  P e = true -> emits_only P (call e x).
Proof. intros He w r w' H. injection H as _ <-. now apply extends_emit. Qed.

Lemma emits_only_bind {A B} (c : M A) (k : A -> M B) :
  emits_only P c -> (forall a, emits_only P (k a)) -> emits_only P (bind c k).
Proof.
  intros Hc Hk w r w' H. unfold bind in H.
  destruct (c w) as [[a | e] w1] eqn:E.
  - eapply extends_trans; [eapply Hc; eauto | eapply Hk; eauto].
  - injection H as _ <-. eapply Hc; eauto.
Qed.

Lemma emits_only_try {A} (c : M A) (h : exn -> M A) :
  emits_only P c -> (forall e, emits_only P (h e)) -> emits_only P (try_except c h).
Proof.
  intros Hc Hh w r w' H. unfold try_except in H.
  destruct (c w) as [[a | e] w1] eqn:E.
  - injection H as _ <-. eapply Hc; eauto.
  - eapply extends_trans; [eapply Hc; eauto | eapply Hh; eauto].
Qed.

Lemma emits_only_silent {A} (c : M A) :
  (forall w, trace (snd (c w)) = trace w) -> emits_only P c.
Proof.
  intros Hc w r w' H. apply extends_same_trace.
  specialize (Hc w). now rewrite H in Hc.
Qed.

End Traces.

(** Discharge a goal [emits_only P c] by following the structure of [c]. *)
Ltac trace_walk :=
  repeat first
    [ apply emits_only_bind; [|intros]
    | apply emits_only_try; [|intros]
    | apply emits_only_call; reflexivity
    | apply emits_only_ret
    | apply emits_only_raise
    | apply emits_only_lift
    | apply emits_only_silent; intros; reflexivity
    | match goal with
      | |- emits_only _ (match ?x with _ => _ end) => destruct x
      | |- emits_only _ (if ?b then _ else _) => destruct b
      | |- emits_only _ (let _ := _ in _) => cbv zeta
      end ].

Section Loader.

Import DataLoader.

Lemma read_file_emits (L : libs) (fp : string) :
  emits_only is_prep_event (read_file L fp).
Proof. unfold read_file. trace_walk. Qed.

Lemma read_table_emits (L : libs) (fp : string) :
  emits_only is_prep_event (read_table L fp).
Proof. unfold read_table. trace_walk. apply read_file_emits. Qed.

Lemma preprocess_emits (L : libs) (data : DataFrame) (tc : string) :
  emits_only is_prep_event (_preprocess_data L data tc).
Proof. unfold _preprocess_data, set_feature_names_. trace_walk. Qed.

Lemma balance_emits (L : libs) (X : DataFrame) (y : Series) (rs : Z) :
  emits_only is_prep_event (_handle_class_imbalance L X y rs).
Proof. unfold _handle_class_imbalance. trace_walk. Qed.

(** What a successful [load_data] went through, stage by stage. *)
Lemma load_data_inv (L : libs) (fp tc : string) (ts : Q) (rs : Z) (w w' : world)
  (Xtr Xte : ndarray) (ytr yte : Series) (fn : list string) :
  load_data L fp tc ts rs w = (Ok (Xtr, Xte, ytr, yte, fn), w') ->
  exists data wa X y wb X_train X_test y_train X_res wc st,
    read_table L fp w = (Ok data, wa) /\
    Frame.has_column data (py_lower L tc) = true /\
    _preprocess_data L data (py_lower L tc) wa = (Ok (X, y, fn), wb) /\
    sk_train_test_split L X y ts rs = Ok (X_train, X_test, y_train, yte) /\
    _handle_class_imbalance L X_train y_train rs (emit (TrainTestSplit X y ts rs) wb)
      = (Ok (X_res, ytr), wc) /\
    sk_scaler_fit L X_res = Ok st /\
    sk_scaler_transform L st X_res = Ok Xtr /\
    sk_scaler_transform L st X_test = Ok Xte /\
    w' = after_scaling X_res X_test st wc.
Proof.
  unfold load_data. intros H. unfold bind at 1 in H.
  destruct (read_table L fp w) as [[data | e] wa] eqn:Hread; [|discriminate].
  destruct (Frame.has_column data (py_lower L tc)) eqn:Hcol;
    [|change (negb false) with true in H; cbv iota in H; discriminate].
  change (negb true) with false in H. cbv iota beta in H.
  unfold bind at 1 in H.
  destruct (_preprocess_data L data (py_lower L tc) wa) as [[[[X y] fn0] | e] wb] eqn:Hpre;
    [|discriminate].
  unfold bind at 1 in H. unfold call at 1 in H.
  destruct (sk_train_test_split L X y ts rs) as [[[[X_train X_test] y_train] y_test] | e] eqn:Hsplit;
    [|discriminate].
  unfold bind at 1 in H.
  destruct (_handle_class_imbalance L X_train y_train rs (emit (TrainTestSplit X y ts rs) wb))
    as [[[X_res y_res] | e] wc] eqn:Hbal; [|discriminate].
  unfold fit_transform, transform, set_scaler, bind, call, ret in H.
  destruct (sk_scaler_fit L X_res) as [st | e] eqn:Hfit; [|discriminate].
  simpl in H.
  destruct (sk_scaler_transform L st X_res) as [a | e] eqn:Ha; [|discriminate].
  simpl in H.
  destruct (sk_scaler_transform L st X_test) as [b | e] eqn:Hb; [|discriminate].
  injection H as <- <- <- <- <- <-.
  exists data, wa, X, y, wb, X_train, X_test, y_train, X_res, wc, st.
  repeat split; auto.
Qed.

End Loader.

Section LoaderFacts.

Import DataLoader.

Lemma emits_only_weaken {A} (P Q : event -> bool) (c : M A) :
  (forall e, P e = true -> Q e = true) -> emits_only P c -> emits_only Q c.
Proof.
  intros HPQ Hc w r w' H. destruct (Hc w r w' H) as [new [Ht Hf]].
  exists new. split; [exact Ht|].
  rewrite forallb_forall in *. auto.
Qed.

Lemma prep_is_loader (e : event) : is_prep_event e = true -> is_loader_event e = true.
Proof. destruct e; simpl; congruence. Qed.

Lemma transform_emits (L : libs) (X : DataFrame) :
  emits_only is_loader_event (transform L X).
Proof.
  intros w r w' H. unfold transform in H. destruct (scaler w).
  - injection H as _ <-. now apply extends_emit.
  - injection H as _ <-. apply extends_refl.
Qed.

Lemma load_data_emits (L : libs) (fp tc : string) (ts : Q) (rs : Z) :
  emits_only is_loader_event (load_data L fp tc ts rs).
Proof.
  unfold load_data.
  apply emits_only_bind;
    [eapply emits_only_weaken; [exact prep_is_loader | apply read_table_emits]|].
  intros data. destruct (negb _); [apply emits_only_raise|].
  apply emits_only_bind;
    [eapply emits_only_weaken; [exact prep_is_loader | apply preprocess_emits]|].
  intros [[X y] fn].
  apply emits_only_bind; [apply emits_only_call; reflexivity|].
  intros [[[X_train X_test] y_train] y_test].
  apply emits_only_bind;
    [eapply emits_only_weaken; [exact prep_is_loader | apply balance_emits]|].
  intros [X_res y_res].
  apply emits_only_bind; [unfold fit_transform, set_scaler; trace_walk|].
  intros a. apply emits_only_bind; [apply transform_emits|].
  intros b. apply emits_only_ret.
Qed.

Lemma prep_events_hold_no_fit (l : list event) :
  forallb is_prep_event l = true -> scaler_fits l = [].
Proof.
  induction l as [|e l IH]; [reflexivity|]. simpl. intros H.
  apply andb_true_iff in H. destruct H as [He Hl].
  destruct e; simpl in He; try discriminate; now apply IH.
Qed.

Lemma loader_events_are_no_stage (l : list event) :
  forallb is_loader_event l = true -> existsb Main.is_stage_event l = false.
Proof.
  induction l as [|e l IH]; [reflexivity|]. simpl. intros H.
  apply andb_true_iff in H. destruct H as [He Hl]. rewrite (IH Hl).
  destruct e; simpl in He; try discriminate; reflexivity.
Qed.

(** The labels that are not the target are all the labels but one, when the
    target occurs once. *)
Lemma positions_filter_length (name : string) (cols : list string) (k : nat) :
  (List.length (Frame.positions name cols k)
   + List.length (filter (fun col => negb (String.eqb col name)) cols)
   = List.length cols)%nat.
Proof.
  revert k. induction cols as [|c cs IH]; intros k; [reflexivity|].
  simpl. destruct (String.eqb c name); simpl; rewrite <- (IH (S k)); lia.
Qed.

Lemma preprocess_feature_names (L : libs) (data : DataFrame) (tc : string)
  (w w' : world) (X : DataFrame) (y : Series) (fn : list string) :
  _preprocess_data L data tc w = (Ok (X, y, fn), w') ->
  fn = filter (fun col => negb (String.eqb col tc)) (columns data) /\
  S (List.length fn) = List.length (columns data).
Proof.
  unfold _preprocess_data. intros H.
  pose proof (positions_filter_length tc (columns data) 0) as Hlen.
  destruct (Frame.positions tc (columns data) 0) as [|i [|j rest]];
    [discriminate | | discriminate].
  simpl in Hlen.
  assert (Hfn : fn = filter (fun col => negb (String.eqb col tc)) (columns data)).
  { unfold bind, call, ret, set_feature_names_ in H.
    destruct (is_object (Frame.column_at data i)).
    - destruct (pd_cat_codes L (Frame.column_at data i)); [|discriminate].
      cbv beta iota in H.
      destruct (filter _ Config.categorical_columns).
      + now injection H as _ _ <- _.
      + destruct (pd_get_dummies L _ _); [|discriminate]. now injection H as _ _ <- _.
    - destruct (filter _ Config.categorical_columns).
      + now injection H as _ _ <- _.
      + destruct (pd_get_dummies L _ _); [|discriminate]. now injection H as _ _ <- _. }
  split; [exact Hfn|]. rewrite Hfn. lia.
Qed.

(** The values of the preparation stages do not depend on the state. *)
Lemma preprocess_value (L : libs) (data : DataFrame) (tc : string) (w w0 : world) :
  fst (_preprocess_data L data tc w) = fst (_preprocess_data L data tc w0).
Proof.
  unfold _preprocess_data.
  destruct (Frame.positions tc (columns data) 0) as [|i [|j rest]]; try reflexivity.
  unfold bind, call, ret, set_feature_names_.
  destruct (is_object (Frame.column_at data i)).
  - destruct (pd_cat_codes L (Frame.column_at data i)); [|reflexivity].
    destruct (filter _ Config.categorical_columns); [reflexivity|].
    destruct (pd_get_dummies L _ _); reflexivity.
  - destruct (filter _ Config.categorical_columns); [reflexivity|].
    destruct (pd_get_dummies L _ _); reflexivity.
Qed.

Lemma balance_value (L : libs) (X : DataFrame) (y : Series) (rs : Z) (w w0 : world) :
  fst (_handle_class_imbalance L X y rs w) = fst (_handle_class_imbalance L X y rs w0).
Proof.
  unfold _handle_class_imbalance. destruct (imbalanced y); reflexivity.
Qed.

End LoaderFacts.

(* ===================================================================== *)
(** ** The dataset reader *)
(* ===================================================================== *)

Section Reader.

Import DataLoader.

Lemma unrecognized_is_not_csv (fp : string) :
  Spec.recognized_extension fp = false ->
  Str.endswith (Str.lower fp) ".csv" = false.
Proof.
  unfold Spec.recognized_extension. intros H.
  apply orb_false_iff in H. destruct H as [H _].
  apply orb_false_iff in H. now destruct H.
Qed.

(** C2, as the code has it: a path with an unrecognized extension is not
    refused.  Like every path that does not end in [.csv], it is handed to
    the spreadsheet parser, openpyxl first and xlrd if that raises; the
    reader returns the table that comes back (column names lower-cased), and
    when both engines raise, the failure is the exception of xlrd.  No
    check of the extension stands between the path and the engines. *)
Theorem unrecognized_extension_goes_to_spreadsheet_engines
  (L : libs) (fp : string) (w : world) :
  Spec.recognized_extension fp = false ->
  read_table L fp w =
    match pd_read_excel L Openpyxl fp with
    | Ok t => (Ok (lower_columns L t), emit (ReadExcel Openpyxl fp) w)
    | Err _ => (result_map (lower_columns L) (pd_read_excel L Xlrd fp),
                emit (ReadExcel Xlrd fp) (emit (ReadExcel Openpyxl fp) w))
    end.
Proof.
  intros H. apply unrecognized_is_not_csv in H.
  unfold read_table, read_file, bind, try_except, call, ret. rewrite H.
  destruct (pd_read_excel L Openpyxl fp); [reflexivity|].
  destruct (pd_read_excel L Xlrd fp); reflexivity.
Qed.

Lemma unrecognized_extension_witness :
  Spec.recognized_extension "clients.dat" = false /\
  read_table Demo.lib "clients.dat" Demo.w0 =
    (Ok (lower_columns Demo.lib Demo.clients), emit (ReadExcel Openpyxl "clients.dat") Demo.w0).
Proof.
  split; [reflexivity|].
  exact (unrecognized_extension_goes_to_spreadsheet_engines
           Demo.lib "clients.dat" Demo.w0 eq_refl).
Defined.

(** C2 fails on the code: [clients.dat] has no recognized extension, yet the
    reader asks openpyxl to parse it and returns the table. *)
Lemma unrecognized_extension_is_parsed :
  Spec.recognized_extension "clients.dat" = false /\
  fst (read_table Demo.lib "clients.dat" Demo.w0) = Ok (lower_columns Demo.lib Demo.clients) /\
  trace (snd (read_table Demo.lib "clients.dat" Demo.w0)) = [ReadExcel Openpyxl "clients.dat"].
Proof. repeat split. Qed.




End Reader.

(* ===================================================================== *)
(** ** The balancer's decision *)
(* ===================================================================== *)

Section BalancerClaims.

Import DataLoader.
Local Open Scope Q_scope.

(** C4: when the smallest class holds at least 30% of the training rows, the
    balancer returns [(X, y)] itself and the resampler is not called (the
    trace is unchanged). *)
Theorem balancer_identity_from_thirty_percent
  (L : libs) (X : DataFrame) (y : Series) (rs : Z) (w : world) (p : Q) :
  Spec.minority_proportion y = Some p -> 3 # 10 <= p ->
  _handle_class_imbalance L X y rs w = (Ok (X, y), w).
Proof.
  intros Hp Hge.
  destruct (balanced_when_all_round_up y p (3 # 10) Hp Hge) as [_ Hb].
  { intros q Hq. apply round1_ge_30. lra. }
  unfold _handle_class_imbalance. now rewrite Hb.
Qed.

Lemma balancer_identity_witness :
  exists p, Spec.minority_proportion [Demo.num 0; Demo.num 1; Demo.num 0] = Some p /\
            3 # 10 <= p /\
            _handle_class_imbalance Demo.lib Demo.skewed
              [Demo.num 0; Demo.num 1; Demo.num 0] 42 Demo.w0
            = (Ok (Demo.skewed, [Demo.num 0; Demo.num 1; Demo.num 0]), Demo.w0).
Proof.
  eexists. split; [reflexivity|]. split; [vm_compute; discriminate|].
  eapply balancer_identity_from_thirty_percent; [reflexivity|].
  vm_compute; discriminate.
Defined.

(** C10: the decision is taken on the percentage rounded to one decimal.
    With a smallest class between 29.95% (included) and 30% (excluded) of
    the rows, the rounded minimum is 30.0, the test [30.0 / 100 < 0.3] is
    false, and the balancer returns its input without resampling. *)
Theorem rounding_hides_imbalance_below_threshold
  (L : libs) (X : DataFrame) (y : Series) (rs : Z) (w : world) (p : Q) :
  Spec.minority_proportion y = Some p -> 2995 # 10000 <= p -> p < 3 # 10 ->
  (exists m, series_min (map snd (class_distribution y)) = Some m /\ m == 30) /\
  imbalanced y = false /\
  _handle_class_imbalance L X y rs w = (Ok (X, y), w).
Proof.
  intros Hp Hge Hlt.
  destruct (balanced_when_all_round_up y p (2995 # 10000) Hp Hge) as [Hall Hb].
  { intros q Hq. apply round1_from_2995. lra. }
  split; [|split; [exact Hb | unfold _handle_class_imbalance; now rewrite Hb]].
  assert (Hin : In (round1 (p * 100)) (map snd (class_distribution y))).
  { rewrite class_distribution_values.
    apply (in_map (fun q => round1 (q * 100))). now apply series_min_In. }
  destruct (series_min_nonempty _ _ Hin) as [m Hm].
  exists m. split; [exact Hm|].
  pose proof (Hall m Hm) as Hlo.
  pose proof (series_min_le _ _ _ Hm Hin) as Hhi.
  assert (round1 (p * 100) <= 30) by (apply round1_le_30; lra).
  apply Qle_antisym; lra.
Qed.

(** 62 rows of class 1 among 207: 29.95...% of the rows. *)
Lemma rounding_hides_imbalance_witness :
  let y := repeat (Demo.num 1) 62 ++ repeat (Demo.num 0) 145 in
  exists p, Spec.minority_proportion y = Some p /\
            2995 # 10000 <= p /\ p < 3 # 10 /\
            (exists m, series_min (map snd (class_distribution y)) = Some m /\ m == 30) /\
            imbalanced y = false /\
            _handle_class_imbalance Demo.lib Demo.skewed y 42 Demo.w0
            = (Ok (Demo.skewed, y), Demo.w0).
Proof.
  intros y. eexists. split; [vm_compute; reflexivity|].
  split; [vm_compute; discriminate|]. split; [vm_compute; reflexivity|].
  eapply rounding_hides_imbalance_below_threshold.
  - vm_compute; reflexivity.
  - vm_compute; discriminate.
  - vm_compute; reflexivity.
Defined.

(** C5, as the code has it: with a class of fewer than six rows that holds
    less than 30% of the training rows, the balancer does no validation of
    its own; it calls the resampler on [(X, y)] with the seed, and its
    outcome, result or exception, is the resampler's. *)
Theorem balancer_hands_small_minority_to_resampler
  (L : libs) (X : DataFrame) (y : Series) (rs : Z) (w : world) (v : cell) (c : nat) :
  In (v, c) (value_counts y) -> (c < Spec.neighbor_requirement)%nat ->
  inject_Z (Z.of_nat c) / inject_Z (Z.of_nat (List.length y)) < 3 # 10 ->
  _handle_class_imbalance L X y rs w
  = (imb_fit_resample L rs X y, emit (SmoteFitResample rs X y) w).
Proof.
  intros Hin Hc Hp. unfold _handle_class_imbalance.
  now rewrite (small_class_is_imbalanced y v c Hin Hc Hp).
Qed.

Lemma balancer_hands_small_minority_witness :
  In (Demo.num 1, 1%nat) (value_counts Demo.one_in_ten) /\
  (1 < Spec.neighbor_requirement)%nat /\
  _handle_class_imbalance Demo.lib Demo.clients Demo.one_in_ten 42 Demo.w0
  = (Err (ValueError "Expected n_neighbors <= n_samples_fit"),
     emit (SmoteFitResample 42 Demo.clients Demo.one_in_ten) Demo.w0).
Proof.
  split; [right; left; reflexivity|]. split; [unfold Spec.neighbor_requirement; lia|].
  apply (balancer_hands_small_minority_to_resampler
           Demo.lib Demo.clients Demo.one_in_ten 42 Demo.w0 (Demo.num 1) 1).
  - right; left; reflexivity.
  - unfold Spec.neighbor_requirement; lia.
  - vm_compute; reflexivity.
Defined.

(** C5 fails on the code: one row in ten is of class 1 (10% of the rows,
    fewer than six samples), and the failure of the run is not a rejection
    by the balancer.  The data reach the resampler unchecked and the
    exception is the one raised inside it. *)
Lemma small_minority_is_not_validated :
  let out := _handle_class_imbalance Demo.lib Demo.clients Demo.one_in_ten 42 Demo.w0 in
  Spec.minority_proportion Demo.one_in_ten = Some (1 # 10) /\
  count_label (Demo.num 1) Demo.one_in_ten = 1%nat /\
  fst out = Err (ValueError "Expected n_neighbors <= n_samples_fit") /\
  trace (snd out) = [SmoteFitResample 42 Demo.clients Demo.one_in_ten] /\
  ~ rejected_by_validation "InsufficientMinoritySamples" Demo.w0 out.
Proof.
  repeat split. intros [msg [H _]]. discriminate H.
Qed.

End BalancerClaims.

(* ===================================================================== *)
(** ** The pipeline *)
(* ===================================================================== *)

Section Pipeline.

Import DataLoader.

Lemma fits_after_prep (pre suffix : list event) :
  forallb is_prep_event pre = true ->
  scaler_fits (pre ++ suffix) = scaler_fits suffix.
Proof.
  induction pre as [|e pre IH]; [reflexivity|]. simpl. intros H.
  apply andb_true_iff in H. destruct H as [He Hpre].
  destruct e; simpl in He; try discriminate; now apply IH.
Qed.

(** Any run of [load_data] fits the scaler at most once, and then on the
    balancer's output. *)
Lemma load_data_fits (L : libs) (fp tc : string) (ts : Q) (rs : Z) (w w' : world)
  (r : result loaded) :
  load_data L fp tc ts rs w = (r, w') ->
  fits_only_on_balanced_training L ts rs w w'.
Proof.
  intros H. unfold load_data in H. unfold bind at 1 in H.
  assert (Hleft : forall w1, extends is_prep_event w w1 ->
                             fits_only_on_balanced_training L ts rs w w1).
  { intros w1 [new [Htr Hev]]. exists new. split; [exact Htr|].
    left. now apply prep_events_hold_no_fit. }
  destruct (read_table L fp w) as [[data | e] wa] eqn:Hread.
  2:{ injection H as _ <-. apply Hleft. eapply read_table_emits; eauto. }
  pose proof (read_table_emits _ _ _ _ _ Hread) as E1.
  destruct (Frame.has_column data (py_lower L tc)).
  2:{ change (negb false) with true in H. cbv iota in H.
      injection H as _ <-. now apply Hleft. }
  change (negb true) with false in H. cbv iota beta in H.
  unfold bind at 1 in H.
  destruct (_preprocess_data L data (py_lower L tc) wa) as [[[[X y] fn] | e] wb] eqn:Hpre.
  2:{ injection H as _ <-. apply Hleft.
      eapply extends_trans; [exact E1 | eapply preprocess_emits; eauto]. }
  assert (E2 : extends is_prep_event w (emit (TrainTestSplit X y ts rs) wb)).
  { eapply extends_trans; [exact E1|].
    eapply extends_trans; [eapply preprocess_emits; eauto|].
    now apply extends_emit. }
  unfold bind at 1 in H. unfold call at 1 in H.
  destruct (sk_train_test_split L X y ts rs)
    as [[[[X_train X_test] y_train] y_test] | e] eqn:Hsplit.
  2:{ injection H as _ <-. now apply Hleft. }
  unfold bind at 1 in H.
  destruct (_handle_class_imbalance L X_train y_train rs (emit (TrainTestSplit X y ts rs) wb))
    as [[[X_res y_res] | e] wc] eqn:Hbal.
  2:{ injection H as _ <-. apply Hleft.
      eapply extends_trans; [exact E2 | eapply balance_emits; eauto]. }
  assert (E3 : extends is_prep_event w wc).
  { eapply extends_trans; [exact E2 | eapply balance_emits; eauto]. }
  destruct E3 as [pre [Htr Hev]].
  assert (Hright : forall suffix w1,
             trace w1 = trace wc ++ ScalerFit X_res :: suffix ->
             scaler_fits suffix = [] ->
             fits_only_on_balanced_training L ts rs w w1).
  { intros suffix w1 Hw1 Hsuf. exists (pre ++ ScalerFit X_res :: suffix). split.
    - now rewrite Hw1, Htr, <- app_assoc.
    - right. exists X, y, X_train, X_test, y_train, y_test, X_res, y_res.
      split; [exact Hsplit|]. split.
      + intros w0.
        rewrite (balance_value L X_train y_train rs w0 (emit (TrainTestSplit X y ts rs) wb)),
          Hbal. reflexivity.
      + rewrite (fits_after_prep _ _ Hev). simpl. now rewrite Hsuf. }
  unfold fit_transform, transform, set_scaler, bind, call, ret in H.
  destruct (sk_scaler_fit L X_res) as [st | e].
  2:{ injection H as _ <-. apply (Hright []); reflexivity. }
  simpl in H.
  destruct (sk_scaler_transform L st X_res) as [a | e].
  2:{ injection H as _ <-. apply (Hright [ScalerTransform X_res]); [|reflexivity].
      simpl. now rewrite <- app_assoc. }
  simpl in H.
  destruct (sk_scaler_transform L st X_test) as [b | e];
    injection H as _ <-;
    (apply (Hright [ScalerTransform X_res; ScalerTransform X_test]); [|reflexivity]);
    simpl; now rewrite <- !app_assoc.
Qed.

(** C7: in every run of [load_data] the scaler is fitted at most once, and
    only on the training features as the balancer returned them, never on
    the test partition.  In a run that succeeds the fit has taken place, its
    state is the one the loader keeps, and the training and the test
    matrices returned are both transformed with that state. *)
Theorem scaler_state_comes_from_balanced_training
  (L : libs) (fp tc : string) (ts : Q) (rs : Z) (w w' : world) (out : result loaded) :
  load_data L fp tc ts rs w = (out, w') ->
  fits_only_on_balanced_training L ts rs w w' /\
  forall r, out = Ok r -> scaler_fitted_on_balanced_training L ts rs w w' r.
Proof.
  intros Hrun. split; [eapply load_data_fits; eauto|].
  intros r ->. rename Hrun into H.
  destruct r as [[[[Xtr Xte] ytr] yte] fn].
  destruct (load_data_inv _ _ _ _ _ _ _ _ _ _ _ _ H)
    as (data & wa & X & y & wb & X_train & X_test & y_train & X_res & wc & st
        & Hread & Hcol & Hpre & Hsplit & Hbal & Hfit & Ha & Hb & ->).
  assert (Hext : extends is_prep_event w wc).
  { eapply extends_trans; [eapply read_table_emits; eauto|].
    eapply extends_trans; [eapply preprocess_emits; eauto|].
    eapply extends_trans; [apply (extends_emit _ (TrainTestSplit X y ts rs)); reflexivity|].
    eapply balance_emits; eauto. }
  destruct Hext as [pre [Htr Hpre_ev]].
  pose proof (prep_events_hold_no_fit pre Hpre_ev) as Hnofit.
  unfold scaler_fitted_on_balanced_training.
  exists X, y, X_train, X_test, y_train, X_res, st, pre.
  repeat split; auto.
  - intros w0.
    rewrite (balance_value L X_train y_train rs w0 (emit (TrainTestSplit X y ts rs) wb)), Hbal.
    reflexivity.
  - unfold after_scaling, emit. simpl. rewrite Htr, <- !app_assoc. reflexivity.
  - now rewrite (fits_after_prep _ _ Hpre_ev).
Qed.

Lemma scaler_state_witness :
  exists r w',
    load_data Demo.lib "clients.csv" Config.target_column (2 # 10) 42 Demo.w0 = (Ok r, w') /\
    fits_only_on_balanced_training Demo.lib (2 # 10) 42 Demo.w0 w' /\
    scaler_fitted_on_balanced_training Demo.lib (2 # 10) 42 Demo.w0 w' r.
Proof.
  do 2 eexists. split; [vm_compute; reflexivity|].
  refine ((fun H => conj (proj1 H) (proj2 H _ eq_refl))
            (scaler_state_comes_from_balanced_training
               Demo.lib "clients.csv" Config.target_column (2 # 10) 42 Demo.w0 _ _ _)).
  vm_compute; reflexivity.
Defined.

(** C8: a run of [load_data] that succeeds returns five components: the
    scaled training matrix, the scaled test matrix, the training target as
    balanced, the test target of the split, and [feature_names], the names
    of the columns of the table other than the target, in the table's order
    and before any categorical expansion.  Their number is the table's
    column count minus one. *)
Theorem load_data_returns_five_tuple_with_feature_names
  (L : libs) (fp tc : string) (ts : Q) (rs : Z) (w w' : world) (r : loaded) :
  load_data L fp tc ts rs w = (Ok r, w') ->
  five_tuple_with_feature_names L fp tc ts rs w r.
Proof.
  destruct r as [[[[Xtr Xte] ytr] yte] fn]. intros H.
  destruct (load_data_inv _ _ _ _ _ _ _ _ _ _ _ _ H)
    as (data & wa & X & y & wb & X_train & X_test & y_train & X_res & wc & st
        & Hread & Hcol & Hpre & Hsplit & Hbal & Hfit & Ha & Hb & _).
  destruct (preprocess_feature_names _ _ _ _ _ _ _ _ Hpre) as [Hfn Hlen].
  unfold five_tuple_with_feature_names.
  exists data, X, y, X_train, X_test, y_train, X_res, st.
  repeat split; auto.
  - now rewrite Hread.
  - lia.
  - intros w0. rewrite (preprocess_value L data (py_lower L tc) w0 wa), Hpre. reflexivity.
  - intros w0.
    rewrite (balance_value L X_train y_train rs w0 (emit (TrainTestSplit X y ts rs) wb)), Hbal.
    reflexivity.
Qed.

Lemma load_data_five_tuple_witness :
  exists r w',
    load_data Demo.lib "clients.csv" Config.target_column (2 # 10) 42 Demo.w0 = (Ok r, w') /\
    snd r = ["limit_bal"; "age"] /\
    five_tuple_with_feature_names Demo.lib "clients.csv" Config.target_column
      (2 # 10) 42 Demo.w0 r.
Proof.
  do 2 eexists. split; [vm_compute; reflexivity|]. split; [reflexivity|].
  eapply (load_data_returns_five_tuple_with_feature_names
            Demo.lib "clients.csv" Config.target_column (2 # 10) 42 Demo.w0).
  vm_compute; reflexivity.
Defined.

(** C6, as the code has it: [load_data] makes no check of [test_size].
    Whatever its value, in (0, 1) or not, it is passed with the seed and the
    target to the library's splitter right after preprocessing.  When the
    splitter raises, [load_data] fails with that exception; when it returns
    partitions, whatever classes they hold, the run goes on with them. *)
Theorem split_size_is_left_to_the_library
  (L : libs) (fp tc : string) (ts : Q) (rs : Z) (w wa wb : world)
  (data X : DataFrame) (y : Series) (fn : list string) :
  read_table L fp w = (Ok data, wa) ->
  Frame.has_column data (py_lower L tc) = true ->
  _preprocess_data L data (py_lower L tc) wa = (Ok (X, y, fn), wb) ->
  load_data L fp tc ts rs w =
    match sk_train_test_split L X y ts rs with
    | Err e => (Err e, emit (TrainTestSplit X y ts rs) wb)
    | Ok (X_train, X_test, y_train, y_test) =>
        (' (X_res, y_res) <- _handle_class_imbalance L X_train y_train rs ;;
         X_train_scaled <- fit_transform L X_res ;;
         X_test_scaled <- transform L X_test ;;
         ret (X_train_scaled, X_test_scaled, y_res, y_test, fn))%py
          (emit (TrainTestSplit X y ts rs) wb)
    end.
Proof.
  intros Hread Hcol Hpre. unfold load_data.
  unfold bind at 1. rewrite Hread, Hcol.
  change (negb true) with false. cbv iota beta.
  unfold bind at 1. rewrite Hpre.
  unfold bind at 1. unfold call at 1.
  destruct (sk_train_test_split L X y ts rs) as [[[[X_train X_test] y_train] y_test] | e];
    reflexivity.
Qed.

(** A test fraction of 1.5: the splitter of the instance, like the real one,
    refuses it, and that refusal is all that happens. *)
Lemma split_size_witness :
  exists data wa X y fn wb,
    read_table Demo.lib "skewed.csv" Demo.w0 = (Ok data, wa) /\
    Frame.has_column data (py_lower Demo.lib "target") = true /\
    _preprocess_data Demo.lib data (py_lower Demo.lib "target") wa = (Ok (X, y, fn), wb) /\
    load_data Demo.lib "skewed.csv" "target" (3 # 2) 42 Demo.w0
    = (Err (ValueError "test_size should be a float in the (0, 1) range"),
       emit (TrainTestSplit X y (3 # 2) 42) wb).
Proof.
  do 6 eexists. split; [vm_compute; reflexivity|].
  split; [reflexivity|]. split; [vm_compute; reflexivity|].
  exact (split_size_is_left_to_the_library Demo.lib "skewed.csv" "target" (3 # 2) 42
           _ _ _ _ _ _ _ eq_refl eq_refl eq_refl).
Defined.

(** C6 fails on the code: with eight rows of class 0, two of class 1 and a
    test fraction of 0.8, the two training rows are of class 0 (the
    stratified allocation of two draws over counts 8 and 2 is 2 and 0), so
    class 1 has an empty training partition; [load_data] does not fail. *)
Lemma empty_class_partition_is_accepted :
  exists X_train_scaled X_test_scaled y_train y_test fn w',
    load_data Demo.lib "skewed.csv" "target" (8 # 10) 42 Demo.w0
    = (Ok (X_train_scaled, X_test_scaled, y_train, y_test, fn), w') /\
    Spec.class_present (Demo.num 1) (Frame.column_at Demo.skewed 1) = true /\
    y_train = [Demo.num 0; Demo.num 0] /\
    Spec.class_present (Demo.num 1) y_train = false.
Proof.
  do 6 eexists. split; [vm_compute; reflexivity|]. repeat split.
Qed.

End Pipeline.

(* ===================================================================== *)
(** ** The entry point *)
(* ===================================================================== *)

Section EntryPoint.

Import Main.

Lemma print_all_trace (lines : list string) (w : world) :
  print_all lines w
  = (Ok tt, mk_world (trace w ++ map Print lines) (scaler w) (feature_names_ w)).
Proof.
  revert w. induction lines as [|l rest IH]; intros w.
  - simpl. unfold ret. rewrite app_nil_r. now destruct w.
  - simpl. unfold bind, print, call. rewrite IH. unfold emit. simpl.
    now rewrite <- app_assoc.
Qed.

Lemma handler_prints_no_stage (e : exn) :
  existsb is_stage_event (map Print (handler_lines e)) = false.
Proof. reflexivity. Qed.

(** C1: whenever [load_data] succeeds, [main] stops at the assignment of
    its five-element result to four names: the assignment raises
    [ValueError: too many values to unpack (expected 4)].  The handler
    catches it and prints six lines, the error message first and the
    checklist after it, and [main] returns.  These prints are all that
    follows the loading: the trace of the whole run holds no event of
    training, evaluation or explanation. *)
Theorem main_fails_to_unpack_before_training
  (L : libs) (a : args) (w w1 : world) (r : DataLoader.loaded) :
  DataLoader.load_data L (data a) Config.target_column (test_size a) (random_state a)
    (mk_world (trace w) None None) = (Ok r, w1) ->
  unpack4 (tuple_items r) = Err (ValueError "too many values to unpack (expected 4)") /\
  main L a w
  = (Ok tt,
     mk_world (trace w1 ++
               [Print (String "010" "Error: too many values to unpack (expected 4)");
                Print (String "010" "Please check the following:");
                Print "1. The file path is correct";
                Print "2. The file is in a supported format (.csv, .xls, .xlsx)";
                Print "3. The specified target column exists in the data";
                Print "4. The data is properly formatted"])
              (scaler w1) (feature_names_ w1)) /\
  exists new, trace (snd (main L a w)) = trace w ++ new /\
              existsb is_stage_event new = false.
Proof.
  intros H.
  assert (Hu : unpack4 (tuple_items r) = Err too_many_values).
  { destruct r as [[[[X_train X_test] y_train] y_test] fn]. reflexivity. }
  assert (Hmain : main L a w
                  = (Ok tt, mk_world (trace w1 ++ map Print (handler_lines too_many_values))
                                     (scaler w1) (feature_names_ w1))).
  { unfold main, try_except, pipeline.
    unfold bind at 1. unfold DataLoader.init.
    unfold bind at 1. rewrite H.
    unfold bind at 1. unfold lift. rewrite Hu.
    apply print_all_trace. }
  split; [exact Hu|]. split; [exact Hmain|].
  destruct (load_data_emits L _ _ _ _ _ _ _ H) as [new [Htr Hev]].
  simpl in Htr.
  exists (new ++ map Print (handler_lines too_many_values)). split.
  - rewrite Hmain. simpl. rewrite Htr, app_assoc. reflexivity.
  - rewrite existsb_app, (loader_events_are_no_stage _ Hev). reflexivity.
Qed.

Lemma main_fails_to_unpack_witness :
  exists r w1,
    DataLoader.load_data Demo.lib "clients.csv" Config.target_column (2 # 10) 42
      (mk_world (trace Demo.w0) None None) = (Ok r, w1) /\
    main Demo.lib (mk_args "clients.csv" (2 # 10) 42 15) Demo.w0
    = (Ok tt,
       mk_world (trace w1 ++
                 [Print (String "010" "Error: too many values to unpack (expected 4)");
                  Print (String "010" "Please check the following:");
                  Print "1. The file path is correct";
                  Print "2. The file is in a supported format (.csv, .xls, .xlsx)";
                  Print "3. The specified target column exists in the data";
                  Print "4. The data is properly formatted"])
                (scaler w1) (feature_names_ w1)).
Proof.
  do 2 eexists. split; [vm_compute; reflexivity|].
  refine (proj1 (proj2 (main_fails_to_unpack_before_training
                          Demo.lib (mk_args "clients.csv" (2 # 10) 42 15) Demo.w0 _ _ _))).
  vm_compute; reflexivity.
Defined.

End EntryPoint.

(* ===================================================================== *)
(** ** Ranking the attributions *)
(* ===================================================================== *)

Section TopIndices.

Import SHAPExplainer.
Local Open Scope Q_scope.

Variable key : nat -> Q.

Lemma insert_by_perm (i : nat) (l : list nat) :
  Permutation (insert_by key i l) (i :: l).
Proof.
  induction l as [|j rest IH]; simpl; [reflexivity|].
  destruct (Qle_bool (key i) (key j)); [reflexivity|].
  rewrite IH. apply perm_swap.
Qed.

Lemma insert_by_sorted (i : nat) (l : list nat) :
  StronglySorted (key_before key) l -> StronglySorted (key_before key) (insert_by key i l).
Proof.
  induction 1 as [|j rest Hs IH Hall]; simpl; [repeat constructor|].
  destruct (Qle_bool (key i) (key j)) eqn:C.
  - apply Qle_bool_iff in C. constructor; [now constructor|].
    constructor; [exact C|].
    eapply Forall_impl; [|exact Hall]. intros x Hx. unfold key_before in *. lra.
  - assert (Hji : key_before key j i).
    { unfold key_before. destruct (Qlt_le_dec (key j) (key i)) as [Hlt | Hle]; [lra|].
      apply Qle_bool_iff in Hle. congruence. }
    constructor; [exact IH|].
    eapply Permutation_Forall; [symmetry; apply insert_by_perm|].
    now constructor.
Qed.

Lemma sort_perm (l : list nat) :
  Permutation (fold_right (insert_by key) [] l) l.
Proof.
  induction l as [|i rest IH]; simpl; [reflexivity|].
  rewrite insert_by_perm. now constructor.
Qed.

Lemma sort_sorted (l : list nat) :
  StronglySorted (key_before key) (fold_right (insert_by key) [] l).
Proof.
  induction l as [|i rest IH]; simpl; [constructor | now apply insert_by_sorted].
Qed.

Lemma sorted_app_inv (l1 l2 : list nat) :
  StronglySorted (key_before key) (l1 ++ l2) ->
  StronglySorted (key_before key) l1 /\
  forall a b, In a l1 -> In b l2 -> key_before key a b.
Proof.
  induction l1 as [|x l1 IH]; simpl; intros H.
  - split; [constructor | intros a b []].
  - inversion H as [|y l Hs Hall]; subst.
    destruct (IH Hs) as [Hs1 Hcross]. split.
    + constructor; [exact Hs1|]. apply Forall_app in Hall. tauto.
    + intros a b [<- | Ha] Hb; [|now apply Hcross].
      rewrite Forall_forall in Hall. apply Hall. apply in_or_app. now right.
Qed.

End TopIndices.

Section Ranking.

Import SHAPExplainer.
Local Open Scope Q_scope.

Lemma argsort_perm (keys : list Q) :
  Permutation (argsort keys) (seq 0 (List.length keys)).
Proof. unfold argsort. apply sort_perm. Qed.

Lemma magnitude_key (shap_values : list Q) (i : nat) :
  nth i (map (fun v => Qopp (Qabs v)) shap_values) 0 = - magnitude shap_values i.
Proof.
  unfold magnitude.
  change 0 with ((fun v => Qopp (Qabs v)) 0) at 1.
  now rewrite map_nth.
Qed.

(** The indices the model charts are a ranked selection. *)
Lemma top_indices_ranked (shap_values : list Q) (top_n : nat) :
  ranked_selection shap_values top_n (top_indices shap_values top_n).
Proof.
  set (keys := map (fun v => Qopp (Qabs v)) shap_values).
  exists (argsort keys). split; [|split; [|reflexivity]].
  - pose proof (argsort_perm keys) as H. unfold keys in H at 2.
    now rewrite length_map in H.
  - pose proof (sort_sorted (fun i => nth i keys 0) (seq 0 (List.length keys))) as Hs.
    fold (argsort keys) in Hs.
    induction Hs as [|x l Hl IH Hall]; constructor; [exact IH|].
    eapply Forall_impl; [|exact Hall].
    intros b Hb. unfold key_before, keys in Hb. rewrite !magnitude_key in Hb. lra.
Qed.

Lemma ranked_selection_length (shap_values : list Q) (top_n : nat) (idx : list nat) :
  ranked_selection shap_values top_n idx ->
  List.length idx = Nat.min top_n (List.length shap_values).
Proof.
  intros (order & Hperm & _ & ->).
  now rewrite length_firstn, (Permutation_length Hperm), length_seq.
Qed.

Lemma ranked_selection_bound (shap_values : list Q) (top_n : nat) (idx : list nat) (i : nat) :
  ranked_selection shap_values top_n idx -> In i idx ->
  (i < List.length shap_values)%nat.
Proof.
  intros (order & Hperm & _ & ->) Hi.
  rewrite <- (firstn_skipn top_n order) in Hperm.
  assert (H : In i (seq 0 (List.length shap_values))).
  { eapply Permutation_in; [exact Hperm|]. apply in_or_app. now left. }
  apply in_seq in H. lia.
Qed.

(** No index left out of a ranked selection outweighs one that is in it. *)
Lemma ranked_selection_dominates (shap_values : list Q) (top_n : nat) (idx : list nat)
  (i j : nat) :
  ranked_selection shap_values top_n idx ->
  In i idx -> (j < List.length shap_values)%nat -> ~ In j idx ->
  magnitude shap_values j <= magnitude shap_values i.
Proof.
  intros (order & Hperm & Hsorted & ->) Hi Hj Hnot.
  assert (Hin : In j order).
  { eapply Permutation_in; [symmetry; exact Hperm|]. apply in_seq. lia. }
  rewrite <- (firstn_skipn top_n order) in Hin, Hsorted.
  apply in_app_or in Hin. destruct Hin as [Hin | Hin]; [contradiction|].
  revert Hsorted Hi. generalize (firstn top_n order) as l1.
  induction l1 as [|x l1 IH]; simpl; intros Hs Hi; [contradiction|].
  inversion Hs as [|y l Hs' Hall]; subst.
  destruct Hi as [<- | Hi]; [|now apply IH].
  rewrite Forall_forall in Hall. apply Hall. apply in_or_app. now right.
Qed.

(** When an index beyond the names outweighs every index within them, every
    ranked selection that is not empty reaches beyond the names. *)
Lemma ranked_selection_leaves_the_names (shap_values : list Q) (top_n n i : nat)
  (idx : list nat) :
  ranked_selection shap_values top_n idx ->
  (0 < top_n)%nat -> (n <= i < List.length shap_values)%nat ->
  (forall j, (j < n)%nat -> magnitude shap_values j < magnitude shap_values i) ->
  exists k, In k idx /\ (n <= k)%nat.
Proof.
  intros Hr Htop Hi Hbig.
  destruct (in_dec Nat.eq_dec i idx) as [Hin | Hout]; [exists i; split; [exact Hin | lia]|].
  pose proof (ranked_selection_length _ _ _ Hr) as Hlen.
  destruct idx as [|k rest]; [simpl in Hlen; lia|].
  exists k. split; [now left|].
  destruct (le_lt_dec n k) as [Hk | Hk]; [exact Hk|].
  pose proof (ranked_selection_dominates _ _ _ k i Hr (or_introl eq_refl)
                (proj2 Hi) Hout) as Hdom.
  specialize (Hbig k Hk). lra.
Qed.

End Ranking.

Section Traces_of_files.

Lemma saved_files_app (a b : list event) :
  saved_files (a ++ b) = saved_files a ++ saved_files b.
Proof.
  induction a as [|e a IH]; [reflexivity|].
  simpl. destruct e; try exact IH. destruct op; simpl; try exact IH. now rewrite IH.
Qed.

End Traces_of_files.

(* ===================================================================== *)
(** ** The explainer's charts *)
(* ===================================================================== *)

Section Charts.

Import SHAPExplainer.

Lemma insert_by_In (key : nat -> Q) (i x : nat) (l : list nat) :
  In x (insert_by key i l) -> x = i \/ In x l.
Proof.
  induction l as [|j rest IH]; simpl.
  - intros [<- | []]. now left.
  - destruct (Qle_bool (key i) (key j)); simpl.
    + intros [<- | H]; auto.
    + intros [<- | H]; auto. destruct (IH H); auto.
Qed.

Lemma sorted_indices_In (key : nat -> Q) (l : list nat) (x : nat) :
  In x (fold_right (insert_by key) [] l) -> In x l.
Proof.
  induction l as [|i rest IH]; simpl; [auto|].
  intros H. destruct (insert_by_In _ _ _ _ H); auto.
Qed.

(** Every index [argsort] returns is an index of its argument. *)
Lemma argsort_bound (keys : list Q) (i : nat) :
  In i (argsort keys) -> (i < List.length keys)%nat.
Proof.
  unfold argsort. intros H. apply sorted_indices_In in H.
  apply in_seq in H. lia.
Qed.

Lemma firstn_subset {A} (n : nat) (l : list A) (x : A) :
  In x (firstn n l) -> In x l.
Proof.
  intros H. rewrite <- (firstn_skipn n l). apply in_or_app. now left.
Qed.

Lemma top_indices_bound (shap_values : list Q) (top_n i : nat) :
  In i (top_indices shap_values top_n) -> (i < List.length shap_values)%nat.
Proof.
  unfold top_indices. intros H. apply firstn_subset in H.
  apply argsort_bound in H. now rewrite length_map in H.
Qed.

Lemma comprehension_pure {A B} (f : A -> M B) (g : A -> B) (l : list A) (w : world) :
  (forall x, In x l -> f x w = (Ok (g x), w)) ->
  comprehension f l w = (Ok (map g l), w).
Proof.
  induction l as [|x rest IH]; intros H; [reflexivity|].
  simpl. unfold bind. rewrite (H x (or_introl eq_refl)).
  rewrite IH; [reflexivity|]. intros y Hy. apply H. now right.
Qed.

Lemma name_at_in_range (names : list string) (i : nat) (w : world) :
  (i < List.length names)%nat ->
  name_at (Some names) i w = (Ok (nth i names EmptyString), w).
Proof.
  intros H. unfold name_at.
  destruct (nth_error names i) as [n|] eqn:E.
  - now rewrite (nth_error_nth _ _ EmptyString E).
  - apply nth_error_None in E. lia.
Qed.

(** A [try] whose handler only prints ends normally. *)
Lemma try_print_returns (body : M unit) (h : exn -> M unit) (w : world) :
  (forall e w1, fst (h e w1) = Ok tt) ->
  fst (try_except body h w) = Ok tt.
Proof.
  intros Hh. unfold try_except. destruct (body w) as [[[] | e] w1]; [reflexivity|].
  apply Hh.
Qed.

(** C9, as the code has it: neither chart function compares the length of
    the attribution vector with the length of [feature_names], and neither
    raises: every exception inside them is caught and reported as a printed
    warning.  When the attribution vector is no longer than [feature_names]
    (shorter included) and the drawing calls succeed, the waterfall chart is
    drawn and saved with no warning at all: the bars are those of the
    indices [idx] of largest magnitude (in the order the sort gives them),
    each labelled with the name found in [feature_names] at its index. *)
Theorem charts_take_names_by_index_unchecked
  (L : libs) (s : self) (expected_value : Q) (shap_values : nparray)
  (X_test_df : pyval) (output_file : string) (w : world) :
  fst (_create_waterfall_plot L s expected_value shap_values X_test_df output_file w)
  = Ok tt /\
  fst (_create_first_prediction_plot L s shap_values X_test_df output_file w) = Ok tt /\
  forall names,
    feature_names s = Some names ->
    (List.length (flatten shap_values) <= List.length names)%nat ->
    (forall op, plt_call L op = Ok tt) ->
    exists idx,
      ranked_selection (flatten shap_values) (Nat.min 10 (List.length names)) idx /\
      _create_waterfall_plot L s expected_value shap_values X_test_df output_file w
      = (Ok tt,
         mk_world (trace w ++
                   [Plt (Figure 12 6);
                    Plt (Barh (seq 0 (List.length idx))
                              (rev (take (flatten shap_values) idx))
                              (rev (map (color_of (flatten shap_values)) idx)));
                    Plt (Yticks (seq 0 (List.length idx))
                                (rev (map (fun i => TickName (nth i names EmptyString)) idx)));
                    Plt (Title "Top SHAP Values for First Prediction");
                    Plt (Xlabel "SHAP value (impact on model output)");
                    Plt TightLayout;
                    Plt (Savefig output_file);
                    Plt Close])
                  (scaler w) (feature_names_ w)).
Proof.
  split; [|split].
  - apply try_print_returns. intros e w1. reflexivity.
  - apply try_print_returns. intros e w1. reflexivity.
  - intros names Hnames Hlen Hplt.
    exists (top_indices (flatten shap_values) (Nat.min 10 (List.length names))).
    split; [apply top_indices_ranked|].
    unfold _create_waterfall_plot, try_except.
    rewrite Hnames.
    set (idx := top_indices (flatten shap_values) (Nat.min 10 (List.length names))).
    unfold bind at 1. unfold plt at 1. unfold call at 1. rewrite Hplt.
    unfold bind at 1. unfold len_names at 1. unfold ret at 1.
    fold idx.
    unfold bind at 1. unfold plt at 1. unfold call at 1. rewrite Hplt.
    unfold bind at 1.
    rewrite (comprehension_pure _ (fun i => TickName (nth i names EmptyString))).
    + unfold bind, plt, call. rewrite !Hplt. unfold emit. simpl.
      rewrite <- !app_assoc. reflexivity.
    + intros i Hi. unfold bind. rewrite name_at_in_range; [reflexivity|].
      apply top_indices_bound in Hi. lia.
Qed.

(** Two attributions of different magnitude against three names: one
    ranked selection, the indices 0 and 1 in this order. *)
Lemma charts_take_names_witness :
  Demo.three_names.(feature_names) = Some ["limit_bal"; "age"; "bill_amt1"] /\
  (List.length (flatten (Vec [1 # 2; - (1 # 5)]%Q)) <= 3)%nat /\
  exists idx,
    ranked_selection [1 # 2; - (1 # 5)]%Q 3 idx /\
    _create_waterfall_plot Demo.lib Demo.three_names 0 (Vec [1 # 2; - (1 # 5)]%Q)
      (PyArray []) "waterfall.png" Demo.w0
    = (Ok tt,
       mk_world ([] ++
                 [Plt (Figure 12 6);
                  Plt (Barh (seq 0 (List.length idx))
                            (rev (take [1 # 2; - (1 # 5)]%Q idx))
                            (rev (map (color_of [1 # 2; - (1 # 5)]%Q) idx)));
                  Plt (Yticks (seq 0 (List.length idx))
                              (rev (map (fun i => TickName
                                           (nth i ["limit_bal"; "age"; "bill_amt1"] EmptyString))
                                        idx)));
                  Plt (Title "Top SHAP Values for First Prediction");
                  Plt (Xlabel "SHAP value (impact on model output)");
                  Plt TightLayout;
                  Plt (Savefig "waterfall.png");
                  Plt Close])
                None None).
Proof.
  split; [reflexivity|]. split; [simpl; lia|].
  apply (proj2 (proj2 (charts_take_names_by_index_unchecked
                         Demo.lib Demo.three_names 0 (Vec [1 # 2; - (1 # 5)]%Q)
                         (PyArray []) "waterfall.png" Demo.w0))
               ["limit_bal"; "age"; "bill_amt1"] eq_refl).
  - simpl; lia.
  - intros op. reflexivity.
Defined.

(** C9 fails on the code: two attribution values against three names.  No
    error is raised and no warning printed; the chart is saved with the two
    bars labelled ["age"] and ["limit_bal"], the third name left out. *)
Lemma short_attribution_vector_is_charted_silently :
  let out := _create_waterfall_plot Demo.lib Demo.three_names 0
               (Vec [1 # 2; - (1 # 5)]%Q) (PyArray []) "waterfall.png" Demo.w0 in
  List.length (flatten (Vec [1 # 2; - (1 # 5)]%Q)) <> List.length ["limit_bal"; "age"; "bill_amt1"] /\
  fst out = Ok tt /\
  trace (snd out)
  = map Plt [Figure 12 6;
             Barh [0; 1]%nat [- (1 # 5); 1 # 2]%Q ["#ff7f0e"; "#1f77b4"];
             Yticks [0; 1]%nat [TickName "age"; TickName "limit_bal"];
             Title "Top SHAP Values for First Prediction";
             Xlabel "SHAP value (impact on model output)";
             TightLayout; Savefig "waterfall.png"; Close] /\
  ~ rejected_by_validation "ColumnMismatch" Demo.w0 out.
Proof.
  split; [simpl; lia|]. split; [reflexivity|]. split; [reflexivity|].
  intros [msg [H _]]. discriminate H.
Qed.

End Charts.

(* ===================================================================== *)
(** ** Strings: suffixes, case, whitespace *)
(* ===================================================================== *)

Section Strings.

Lemma lower_app (a b : string) :
  Str.lower (a ++ b)%string = (Str.lower a ++ Str.lower b)%string.
Proof.
  induction a as [|c a IH]; simpl; [reflexivity|]. now rewrite IH.
Qed.

Lemma length_app_string (a b : string) :
  String.length (a ++ b)%string = (String.length a + String.length b)%nat.
Proof.
  induction a as [|c a IH]; simpl; [reflexivity|]. now rewrite IH.
Qed.

Lemma substring_all (b : string) : substring 0 (String.length b) b = b.
Proof.
  induction b as [|c b IH]; simpl; [reflexivity|]. now rewrite IH.
Qed.

Lemma substring_skip (a b : string) :
  substring (String.length a) (String.length b) (a ++ b)%string = b.
Proof.
  induction a as [|c a IH]; simpl; [apply substring_all | exact IH].
Qed.

(** A string ends with any string appended to it. *)
Lemma endswith_app (a b : string) : Str.endswith (a ++ b)%string b = true.
Proof.
  unfold Str.endswith. rewrite length_app_string.
  replace (String.length a + String.length b - String.length b)%nat
    with (String.length a) by lia.
  rewrite substring_skip, String.eqb_refl, andb_true_r.
  apply Nat.leb_le. lia.
Qed.

Lemma substring_split (n : nat) (s : string) :
  (n <= String.length s)%nat ->
  s = (substring 0 n s ++ substring n (String.length s - n) s)%string.
Proof.
  revert s. induction n as [|n IH]; intros s H.
  - simpl. rewrite Nat.sub_0_r, substring_all.
    destruct s; reflexivity.
  - destruct s as [|c s]; simpl in *; [lia|].
    rewrite <- IH by lia. reflexivity.
Qed.

(** What [endswith] answers [True] on. *)
Lemma endswith_inv (s suffix : string) :
  Str.endswith s suffix = true -> exists pre, s = (pre ++ suffix)%string.
Proof.
  unfold Str.endswith. intros H. apply andb_true_iff in H. destruct H as [Hle Heq].
  apply Nat.leb_le in Hle. apply String.eqb_eq in Heq.
  exists (substring 0 (String.length s - String.length suffix) s).
  pose proof (substring_split (String.length s - String.length suffix) s) as Hs.
  replace (String.length s - (String.length s - String.length suffix))%nat
    with (String.length suffix) in Hs by lia.
  rewrite Heq in Hs. apply Hs. lia.
Qed.

Lemma length_lower (s : string) : String.length (Str.lower s) = String.length s.
Proof.
  induction s as [|c s IH]; simpl; [reflexivity|]. now rewrite IH.
Qed.

Lemma lower_substring (n m : nat) (s : string) :
  Str.lower (substring n m s) = substring n m (Str.lower s).
Proof.
  revert n m. induction s as [|c s IH]; intros n m.
  - destruct n, m; reflexivity.
  - destruct n as [|n]; destruct m as [|m]; simpl; try reflexivity.
    + now rewrite IH.
    + apply IH.
    + apply IH.
Qed.

End Strings.

(* ===================================================================== *)
(** ** Reading: routes and failures *)
(* ===================================================================== *)

Section ReaderEdges.

Import DataLoader.

Lemma csv_test_spec (fp : string) :
  Str.endswith (Str.lower fp) ".csv" = true <->
  exists pre ext, fp = (pre ++ ext)%string /\ Str.lower ext = ".csv"%string.
Proof.
  split.
  - unfold Str.endswith. rewrite length_lower. intros H.
    apply andb_true_iff in H. destruct H as [Hle Heq].
    apply Nat.leb_le in Hle. apply String.eqb_eq in Heq.
    rewrite <- lower_substring in Heq.
    exists (substring 0 (String.length fp - String.length ".csv") fp),
           (substring (String.length fp - String.length ".csv") (String.length ".csv") fp).
    split; [|exact Heq].
    pose proof (substring_split (String.length fp - String.length ".csv") fp) as Hs.
    replace (String.length fp - (String.length fp - String.length ".csv"))%nat
      with (String.length ".csv") in Hs by lia.
    apply Hs. lia.
  - intros (pre & ext & -> & Hext). rewrite lower_app, Hext. apply endswith_app.
Qed.

(** X1.  The parser is chosen by the last four characters of the path, whatever
    their case.  A path ending in [.csv], [.CSV], ... is read by [read_csv]
    alone: its failure is final and no spreadsheet engine is consulted.
    Every other path is read by the spreadsheet engines alone. *)
Theorem read_file_routes (L : libs) (fp : string) (w : world) :
  ((exists pre ext, fp = (pre ++ ext)%string /\ Str.lower ext = ".csv"%string) /\
   read_file L fp w = (pd_read_csv L fp, emit (ReadCsv fp) w))
  \/
  ((~ exists pre ext, fp = (pre ++ ext)%string /\ Str.lower ext = ".csv"%string) /\
   read_file L fp w =
     match pd_read_excel L Openpyxl fp with
     | Ok t => (Ok t, emit (ReadExcel Openpyxl fp) w)
     | Err _ => (pd_read_excel L Xlrd fp,
                 emit (ReadExcel Xlrd fp) (emit (ReadExcel Openpyxl fp) w))
     end).
Proof.
  unfold read_file, try_except, call.
  destruct (Str.endswith (Str.lower fp) ".csv") eqn:E.
  - left. split; [now apply csv_test_spec | reflexivity].
  - right. split.
    + intros H. apply csv_test_spec in H. congruence.
    + destruct (pd_read_excel L Openpyxl fp); reflexivity.
Qed.

(** What the reader returns for a path whose parser answers. *)
Lemma read_table_parsed (L : libs) (fp : string) (w : world) (t : DataFrame) :
  parsed L fp t ->
  exists wr, read_table L fp w = (Ok (lower_columns L t), wr) /\
             extends is_pre_split_event w wr /\
             scaler wr = scaler w /\ feature_names_ wr = feature_names_ w.
Proof.
  unfold parsed, read_table, read_file, bind, try_except, call, ret.
  destruct (Str.endswith (Str.lower fp) ".csv").
  - intros ->. eexists. split; [reflexivity|]. split; [|split; reflexivity].
    now apply extends_emit.
  - intros [-> | [Hfail ->]].
    + eexists. split; [reflexivity|]. split; [|split; reflexivity].
      now apply extends_emit.
    + destruct (pd_read_excel L Openpyxl fp); [discriminate|].
      eexists. split; [reflexivity|]. split; [|split; reflexivity].
      eapply extends_trans; now apply extends_emit.
Qed.

Lemma has_column_lowered (L : libs) (t : DataFrame) (name : string) :
  Frame.has_column (lower_columns L t) name = false <->
  forall c, In c (columns t) -> py_lower L c <> name.
Proof.
  unfold Frame.has_column, lower_columns. simpl. split.
  - intros H c Hc E. 
    assert (existsb (String.eqb name) (map (py_lower L) (columns t)) = true).
    { apply existsb_exists. exists (py_lower L c). split; [now apply in_map|].
      rewrite E. apply String.eqb_refl. }
    congruence.
  - intros H. destruct (existsb _ _) eqn:E; [|reflexivity].
    apply existsb_exists in E. destruct E as [x [Hx Hn]].
    apply in_map_iff in Hx. destruct Hx as [c [<- Hc]].
    apply String.eqb_eq in Hn. exfalso. now apply (H c Hc).
Qed.

(** X2.  A table without the target.  When no column name of the parsed table
    has the same lower-case form as the target, both taken by
    [str.lower()], [load_data] raises the [ValueError] of line 39: its
    message holds the lower-cased target between single quotes and the
    [repr] of the list of lower-cased column names.  Nothing but the
    reading has happened by then, and the loader's attributes are as
    before. *)
Theorem load_data_reports_missing_target
  (L : libs) (fp tc : string) (ts : Q) (rs : Z) (w : world) (t : DataFrame) :
  parsed L fp t ->
  (forall c, In c (columns t) -> py_lower L c <> py_lower L tc) ->
  exists w',
    load_data L fp tc ts rs w
    = (Err (ValueError ("Target column '" ++ py_lower L tc
                        ++ "' not found in the dataset. Available columns: "
                        ++ py_repr_list L (map (py_lower L) (columns t)))%string), w') /\
    w' = snd (read_table L fp w) /\
    extends is_pre_split_event w w' /\
    scaler w' = scaler w /\ feature_names_ w' = feature_names_ w.
Proof.
  intros Hp Hno.
  destruct (read_table_parsed L fp w t Hp) as (wr & Hread & Hext & Hs & Hf).
  apply has_column_lowered in Hno.
  exists wr. split; [|split; [now rewrite Hread | auto]].
  unfold load_data. unfold bind at 1. rewrite Hread, Hno. reflexivity.
Qed.

Lemma load_data_missing_target_witness :
  parsed Demo.lib "clients.csv" Demo.clients /\
  exists w',
    load_data Demo.lib "clients.csv" "Default" (2 # 10) 42 Demo.w0
    = (Err (ValueError ("Target column 'default' not found in the dataset. "
                        ++ "Available columns: "
                        ++ "['limit_bal', 'age', 'default payment next month']")%string),
       w') /\
    w' = snd (read_table Demo.lib "clients.csv" Demo.w0) /\
    extends is_pre_split_event Demo.w0 w' /\
    scaler w' = scaler Demo.w0 /\ feature_names_ w' = feature_names_ Demo.w0.
Proof.
  split; [reflexivity|].
  apply (load_data_reports_missing_target Demo.lib "clients.csv" "Default" (2 # 10) 42
           Demo.w0 Demo.clients eq_refl).
  intros c [<- | [<- | [<- | []]]]; discriminate.
Defined.

End ReaderEdges.

(* ===================================================================== *)
(** ** Preprocessing: the target column and the stored names *)
(* ===================================================================== *)

Section PreprocessEdges.

Import DataLoader.

Lemma positions_lowered_length (L : libs) (name : string) (cols : list string) (k : nat) :
  List.length (Frame.positions name (map (py_lower L) cols) k)
  = List.length (filter (fun c => String.eqb (py_lower L c) name) cols).
Proof.
  revert k. induction cols as [|c cs IH]; intros k; [reflexivity|].
  simpl. destruct (String.eqb (py_lower L c) name); simpl; now rewrite IH.
Qed.

(** X3.  Two columns that collide with the target.  When two or more columns of
    the parsed table equal the target up to case (["Default"] and
    ["default"], say), the lower-cased table carries the label twice,
    [df[target_column]] is a frame, and [load_data] fails in
    [_preprocess_data] with [AttributeError]; neither the splitter nor any
    later stage is reached. *)
Theorem load_data_rejects_colliding_target_columns
  (L : libs) (fp tc : string) (ts : Q) (rs : Z) (w : world) (t : DataFrame) :
  parsed L fp t ->
  (2 <= List.length (filter (fun c => String.eqb (py_lower L c) (py_lower L tc))
                            (columns t)))%nat ->
  load_data L fp tc ts rs w
  = (Err (AttributeError "'DataFrame' object has no attribute 'dtype'"),
     snd (read_table L fp w)) /\
  extends is_pre_split_event w (snd (read_table L fp w)).
Proof.
  intros Hp Hdup.
  destruct (read_table_parsed L fp w t Hp) as (wr & Hread & Hext & _ & _).
  rewrite Hread. simpl snd. split; [|exact Hext].
  assert (Hcol : Frame.has_column (lower_columns L t) (py_lower L tc) = true).
  { destruct (Frame.has_column (lower_columns L t) (py_lower L tc)) eqn:E; [reflexivity|].
    rewrite has_column_lowered in E.
    destruct (filter _ (columns t)) as [|c rest] eqn:F; [simpl in Hdup; lia|].
    assert (Hc : In c (filter (fun c => String.eqb (py_lower L c) (py_lower L tc)) (columns t)))
      by (rewrite F; now left).
    apply filter_In in Hc. destruct Hc as [Hc Heq]. apply String.eqb_eq in Heq.
    exfalso. exact (E c Hc Heq). }
  unfold load_data. unfold bind at 1. rewrite Hread, Hcol.
  change (negb true) with false. cbv iota beta.
  unfold bind at 1. unfold _preprocess_data.
  pose proof (positions_lowered_length L (py_lower L tc) (columns t) 0) as Hlen.
  change (columns (lower_columns L t)) with (map (py_lower L) (columns t)).
  destruct (Frame.positions (py_lower L tc) (map (py_lower L) (columns t)) 0)
    as [|i [|j rest]]; simpl in Hlen; try lia.
  reflexivity.
Qed.

Lemma load_data_colliding_target_witness :
  parsed Cases.lib "collide.csv" Cases.colliding /\
  load_data Cases.lib "collide.csv" "default" (2 # 10) 42 Demo.w0
  = (Err (AttributeError "'DataFrame' object has no attribute 'dtype'"),
     snd (read_table Cases.lib "collide.csv" Demo.w0)) /\
  extends is_pre_split_event Demo.w0 (snd (read_table Cases.lib "collide.csv" Demo.w0)).
Proof.
  split; [reflexivity|].
  apply (load_data_rejects_colliding_target_columns Cases.lib "collide.csv" "default"
           (2 # 10) 42 Demo.w0 Cases.colliding eq_refl).
  simpl. lia.
Defined.

End PreprocessEdges.

Section StoredNames.

Import DataLoader.

Lemma keep_mask_filter {A} (p : A -> bool) (l : list A) :
  Frame.keep_mask (map p l) l = filter p l.
Proof.
  induction l as [|x l IH]; [reflexivity|]. simpl.
  destruct (p x); now rewrite IH.
Qed.

(** Dropping a label keeps the other labels, in order. *)
Lemma drop_columns (df : DataFrame) (name : string) :
  columns (Frame.drop df name)
  = filter (fun col => negb (String.eqb col name)) (columns df).
Proof.
  unfold Frame.drop. simpl. rewrite keep_mask_filter.
  apply filter_ext. intros c. now rewrite String.eqb_sym.
Qed.

(** What a successful [_preprocess_data] leaves in the loader, and how its
    outputs relate when no categorical column is there. *)
Lemma preprocess_outputs (L : libs) (data : DataFrame) (tc : string)
  (w w' : world) (X : DataFrame) (y : Series) (fn : list string) :
  _preprocess_data L data tc w = (Ok (X, y, fn), w') ->
  feature_names_ w' = Some (columns X) /\
  scaler w' = scaler w /\
  (filter (Frame.has_column data) Config.categorical_columns = [] -> columns X = fn).
Proof.
  unfold _preprocess_data. intros H.
  destruct (Frame.positions tc (columns data) 0) as [|i [|j rest]];
    [discriminate | | discriminate].
  unfold bind, call, ret, set_feature_names_ in H.
  destruct (is_object (Frame.column_at data i)).
  - destruct (pd_cat_codes L (Frame.column_at data i)) as [codes|]; [|discriminate].
    cbv beta iota in H.
    change (Frame.has_column (Frame.setitem data i codes)) with (Frame.has_column data) in H.
    destruct (filter (Frame.has_column data) Config.categorical_columns) eqn:F.
    + injection H as <- _ <- <-. simpl. repeat split.
      intros _. apply (drop_columns (Frame.setitem data i codes)).
    + destruct (pd_get_dummies L _ _); [|discriminate].
      injection H as <- _ _ <-. simpl. repeat split. discriminate.
  - destruct (filter (Frame.has_column data) Config.categorical_columns) eqn:F.
    + injection H as <- _ <- <-. simpl. repeat split.
      intros _. apply drop_columns.
    + destruct (pd_get_dummies L _ _); [|discriminate].
      injection H as <- _ _ <-. simpl. repeat split. discriminate.
Qed.

Lemma balance_keeps_attributes (L : libs) (X : DataFrame) (y : Series) (rs : Z)
  (w w' : world) (r : result (DataFrame * Series)) :
  _handle_class_imbalance L X y rs w = (r, w') ->
  scaler w' = scaler w /\ feature_names_ w' = feature_names_ w.
Proof.
  unfold _handle_class_imbalance, call, ret.
  destruct (imbalanced y); intros H; injection H as _ <-; split; reflexivity.
Qed.

(** X5.  The names kept for the explainer.  After a successful [load_data] the
    loader's [feature_names_] are the column names of the encoded matrix
    that went to the splitter.  When the table has none of the configured
    categorical columns, these are exactly the returned [feature_names];
    otherwise they are the names [get_dummies] produced. *)
Theorem load_data_stores_encoded_column_names
  (L : libs) (fp tc : string) (ts : Q) (rs : Z) (w w' : world)
  (Xtr Xte : ndarray) (ytr yte : Series) (fn : list string) :
  load_data L fp tc ts rs w = (Ok (Xtr, Xte, ytr, yte, fn), w') ->
  exists data X y,
    fst (read_table L fp w) = Ok data /\
    (forall w0, fst (_preprocess_data L data (py_lower L tc) w0) = Ok (X, y, fn)) /\
    In (TrainTestSplit X y ts rs) (trace w') /\
    feature_names_ w' = Some (columns X) /\
    (filter (Frame.has_column data) Config.categorical_columns = [] ->
     feature_names_ w' = Some fn).
Proof.
  intros H.
  destruct (load_data_inv _ _ _ _ _ _ _ _ _ _ _ _ H)
    as (data & wa & X & y & wb & X_train & X_test & y_train & X_res & wc & st
        & Hread & Hcol & Hpre & Hsplit & Hbal & Hfit & Ha & Hb & ->).
  destruct (preprocess_outputs _ _ _ _ _ _ _ _ Hpre) as (Hnames & _ & Hplain).
  destruct (balance_keeps_attributes _ _ _ _ _ _ _ Hbal) as [_ Hkeep].
  simpl in Hkeep.
  destruct (balance_emits _ _ _ _ _ _ _ Hbal) as [new [Htr _]].
  exists data, X, y. split; [now rewrite Hread|]. split; [|split; [|split]].
  - intros w0. rewrite (preprocess_value L data (py_lower L tc) w0 wa), Hpre. reflexivity.
  - unfold after_scaling, emit. simpl. rewrite Htr. simpl.
    rewrite <- !app_assoc. apply in_or_app. right. apply in_or_app. left. now left.
  - unfold after_scaling, emit. simpl. rewrite Hkeep. exact Hnames.
  - intros Hno. unfold after_scaling, emit. simpl. rewrite Hkeep.
    now rewrite Hnames, (Hplain Hno).
Qed.

Lemma load_data_stores_names_witness :
  exists Xtr Xte ytr yte fn w',
    load_data Demo.lib "clients.csv" Config.target_column (2 # 10) 42 Demo.w0
    = (Ok (Xtr, Xte, ytr, yte, fn), w') /\
    feature_names_ w' = Some ["limit_bal"; "age"] /\
    exists data X y,
      fst (read_table Demo.lib "clients.csv" Demo.w0) = Ok data /\
      (forall w0, fst (_preprocess_data Demo.lib data (py_lower Demo.lib Config.target_column) w0)
                  = Ok (X, y, fn)) /\
      In (TrainTestSplit X y (2 # 10) 42) (trace w') /\
      feature_names_ w' = Some (columns X) /\
      (filter (Frame.has_column data) Config.categorical_columns = [] ->
       feature_names_ w' = Some fn).
Proof.
  do 6 eexists. split; [vm_compute; reflexivity|]. split; [reflexivity|].
  eapply load_data_stores_encoded_column_names. vm_compute; reflexivity.
Defined.

End StoredNames.

(* ===================================================================== *)
(** ** Balancing: the effective threshold and where it is applied *)
(* ===================================================================== *)

Section BalancerEdges.

Import DataLoader.
Local Open Scope Q_scope.

Lemma imbalanced_below_2995 (y : Series) (p : Q) :
  Spec.minority_proportion y = Some p -> p < 2995 # 10000 -> imbalanced y = true.
Proof.
  intros Hp Hlt.
  assert (Hin : In (round1 (p * 100)) (map snd (class_distribution y))).
  { rewrite class_distribution_values.
    apply (in_map (fun q => round1 (q * 100))). now apply series_min_In. }
  unfold imbalanced. destruct (series_min_nonempty _ _ Hin) as [m Hm]. rewrite Hm.
  pose proof (series_min_le _ _ _ Hm Hin) as Hle.
  assert (round1 (p * 100) < 30) by (apply round1_lt_30; lra).
  apply Qltb_true. apply Qlt_shift_div_r; lra.
Qed.

(** X6.  The threshold that decides.  Because the percentages are rounded to one
    decimal before the comparison with 30%, the resampler is called exactly
    when the smallest class holds less than 29.95% of the training rows;
    from 29.95% on, the input is returned as it is. *)
Theorem balancer_resamples_exactly_below_2995
  (L : libs) (X : DataFrame) (y : Series) (rs : Z) (w : world) (p : Q) :
  Spec.minority_proportion y = Some p ->
  (p < 2995 # 10000 ->
   _handle_class_imbalance L X y rs w
   = (imb_fit_resample L rs X y, emit (SmoteFitResample rs X y) w)) /\
  (2995 # 10000 <= p -> _handle_class_imbalance L X y rs w = (Ok (X, y), w)).
Proof.
  intros Hp. unfold _handle_class_imbalance. split; intros H.
  - now rewrite (imbalanced_below_2995 y p Hp H).
  - destruct (balanced_when_all_round_up y p (2995 # 10000) Hp H) as [_ Hb].
    { intros q Hq. apply round1_from_2995. lra. }
    now rewrite Hb.
Qed.

Lemma balancer_threshold_witness :
  let y := repeat (Demo.num 1) 61 ++ repeat (Demo.num 0) 146 in
  exists p, Spec.minority_proportion y = Some p /\ p < 2995 # 10000 /\
            _handle_class_imbalance Demo.lib Demo.skewed y 42 Demo.w0
            = (imb_fit_resample Demo.lib 42 Demo.skewed y,
               emit (SmoteFitResample 42 Demo.skewed y) Demo.w0).
Proof.
  intros y. eexists. split; [vm_compute; reflexivity|].
  split; [vm_compute; reflexivity|].
  refine (proj1 (balancer_resamples_exactly_below_2995
                   Demo.lib Demo.skewed y 42 Demo.w0 _ _) _);
    vm_compute; reflexivity.
Defined.

Lemma cell_eqb_refl (a : cell) : cell_eqb a a = true.
Proof.
  destruct a; simpl; [apply Qeq_bool_iff; reflexivity | apply String.eqb_refl].
Qed.

Lemma cell_eqb_sym (a b : cell) : cell_eqb a b = cell_eqb b a.
Proof.
  destruct a, b; simpl; try reflexivity.
  - destruct (Qeq_bool q q0) eqn:E1, (Qeq_bool q0 q) eqn:E2; try reflexivity.
    + apply Qeq_bool_iff in E1. symmetry in E1. apply Qeq_bool_iff in E1. congruence.
    + apply Qeq_bool_iff in E2. symmetry in E2. apply Qeq_bool_iff in E2. congruence.
  - apply String.eqb_sym.
Qed.

Lemma cell_eqb_trans (a b c : cell) :
  cell_eqb a b = true -> cell_eqb b c = true -> cell_eqb a c = true.
Proof.
  destruct a, b, c; simpl; try discriminate.
  - rewrite !Qeq_bool_iff. intros H1 H2. now rewrite H1.
  - rewrite !String.eqb_eq. congruence.
Qed.

Lemma distinct_all_seen (seen : list cell) (y : Series) :
  (forall x, In x y -> existsb (cell_eqb x) seen = true) -> distinct seen y = [].
Proof.
  induction y as [|v rest IH]; intros H; [reflexivity|].
  simpl. rewrite (H v (or_introl eq_refl)). apply IH. intros x Hx. apply H. now right.
Qed.

Lemma filter_all {A} (p : A -> bool) (l : list A) :
  (forall x, In x l -> p x = true) -> filter p l = l.
Proof.
  induction l as [|x l IH]; intros H; [reflexivity|].
  simpl. rewrite (H x (or_introl eq_refl)). f_equal. apply IH. intros z Hz. apply H. now right.
Qed.

(** X7.  A target with a single label.  When all the training rows carry the
    same label, and also when there is no row at all, the balancer returns
    its input and the resampler is not called. *)
Theorem balancer_leaves_single_class_alone
  (L : libs) (X : DataFrame) (y : Series) (rs : Z) (w : world) (v : cell) :
  (forall x, In x y -> cell_eqb v x = true) ->
  _handle_class_imbalance L X y rs w = (Ok (X, y), w).
Proof.
  intros Hall. destruct y as [|a rest]; [reflexivity|].
  assert (Ha : forall x, In x (a :: rest) -> cell_eqb a x = true).
  { intros x Hx. apply (cell_eqb_trans a v x).
    - rewrite cell_eqb_sym. apply Hall. now left.
    - now apply Hall. }
  assert (Hvc : value_counts (a :: rest) = [(a, List.length (a :: rest))]).
  { unfold value_counts. simpl distinct. rewrite distinct_all_seen.
    - simpl map. unfold count_label. now rewrite (filter_all _ _ Ha).
    - intros x Hx. simpl. rewrite cell_eqb_sym, (Ha x (or_intror Hx)). reflexivity. }
  set (n := inject_Z (Z.of_nat (List.length (a :: rest)))).
  assert (Hn : 0 < n).
  { unfold n. change 0 with (inject_Z 0). rewrite <- Zlt_Qlt. simpl List.length. lia. }
  assert (Hp : Spec.minority_proportion (a :: rest) = Some (n / n)).
  { unfold Spec.minority_proportion, value_counts_normalized. rewrite Hvc. reflexivity. }
  assert (Hge : 2995 # 10000 <= n / n) by (apply Qle_shift_div_l; [exact Hn | lra]).
  destruct (balanced_when_all_round_up (a :: rest) (n / n) (2995 # 10000) Hp Hge) as [_ Hb].
  { intros q Hq. apply round1_from_2995. lra. }
  unfold _handle_class_imbalance. now rewrite Hb.
Qed.

End BalancerEdges.

Section BalancerPlacement.

Import DataLoader.

Lemma single_class_witness :
  (forall x, In x [Demo.num 0; Demo.num 0] -> cell_eqb (Demo.num 0) x = true) /\
  _handle_class_imbalance Demo.lib Demo.skewed [Demo.num 0; Demo.num 0] 42 Demo.w0
  = (Ok (Demo.skewed, [Demo.num 0; Demo.num 0]), Demo.w0).
Proof.
  assert (H : forall x, In x [Demo.num 0; Demo.num 0] -> cell_eqb (Demo.num 0) x = true).
  { intros x [<- | [<- | []]]; reflexivity. }
  split; [exact H|].
  exact (balancer_leaves_single_class_alone Demo.lib Demo.skewed
           [Demo.num 0; Demo.num 0] 42 Demo.w0 (Demo.num 0) H).
Defined.

Lemma read_table_emits_pre (L : libs) (fp : string) :
  emits_only is_pre_split_event (read_table L fp).
Proof. unfold read_table, read_file. trace_walk. Qed.

Lemma preprocess_emits_pre (L : libs) (data : DataFrame) (tc : string) :
  emits_only is_pre_split_event (_preprocess_data L data tc).
Proof. unfold _preprocess_data, set_feature_names_. trace_walk. Qed.

Lemma scaling_emits (L : libs) (X_res X_test : DataFrame) (y_res y_test : Series)
  (fn : list string) :
  emits_only is_scaler_event
    (X_train_scaled <- fit_transform L X_res ;;
     X_test_scaled <- transform L X_test ;;
     ret (X_train_scaled, X_test_scaled, y_res, y_test, fn))%py.
Proof.
  apply emits_only_bind; [unfold fit_transform, set_scaler; trace_walk|].
  intros a. apply emits_only_bind; [|intros b; apply emits_only_ret].
  intros w r w' H. unfold transform in H. destruct (scaler w).
  - injection H as _ <-. now apply extends_emit.
  - injection H as _ <-. apply extends_refl.
Qed.

Lemma smote_calls_app (a b : list event) :
  smote_calls (a ++ b) = smote_calls a ++ smote_calls b.
Proof.
  induction a as [|e a IH]; [reflexivity|].
  destruct e; simpl; rewrite IH; reflexivity.
Qed.

Lemma no_smote_before_split (l : list event) :
  forallb is_pre_split_event l = true -> smote_calls l = [].
Proof.
  induction l as [|e l IH]; [reflexivity|]. simpl. intros H.
  apply andb_true_iff in H. destruct H as [He Hl].
  destruct e; simpl in He; try discriminate; now apply IH.
Qed.

Lemma no_smote_in_scaling (l : list event) :
  forallb is_scaler_event l = true -> smote_calls l = [].
Proof.
  induction l as [|e l IH]; [reflexivity|]. simpl. intros H.
  apply andb_true_iff in H. destruct H as [He Hl].
  destruct e; simpl in He; try discriminate; now apply IH.
Qed.

(** X8.  Balancing is for the training partition only.  In any run of
    [load_data], failed or not, the resampler is called at most once, with
    the seed of the run and on the training features and training target
    that the splitter returned; the test partition is never resampled. *)
Theorem resampler_sees_only_the_training_partition
  (L : libs) (fp tc : string) (ts : Q) (rs : Z) (w w' : world) (r : result loaded) :
  load_data L fp tc ts rs w = (r, w') ->
  exists new,
    trace w' = trace w ++ new /\
    (smote_calls new = [] \/
     exists X y X_train X_test y_train y_test,
       sk_train_test_split L X y ts rs = Ok (X_train, X_test, y_train, y_test) /\
       smote_calls new = [(rs, X_train, y_train)]).
Proof.
  intros H. unfold load_data in H. unfold bind at 1 in H.
  assert (Hleft : forall w1, extends is_pre_split_event w w1 ->
            exists new, trace w1 = trace w ++ new /\
              (smote_calls new = [] \/
               exists X y X_train X_test y_train y_test,
                 sk_train_test_split L X y ts rs = Ok (X_train, X_test, y_train, y_test) /\
                 smote_calls new = [(rs, X_train, y_train)])).
  { intros w1 [new [Htr Hev]]. exists new. split; [exact Htr|].
    left. now apply no_smote_before_split. }
  destruct (read_table L fp w) as [[data | e] wa] eqn:Hread.
  2:{ injection H as _ <-. apply Hleft. eapply read_table_emits_pre; eauto. }
  pose proof (read_table_emits_pre _ _ _ _ _ Hread) as E1.
  destruct (Frame.has_column data (py_lower L tc)).
  2:{ change (negb false) with true in H. cbv iota in H.
      injection H as _ <-. now apply Hleft. }
  change (negb true) with false in H. cbv iota beta in H.
  unfold bind at 1 in H.
  destruct (_preprocess_data L data (py_lower L tc) wa) as [[[[X y] fn] | e] wb] eqn:Hpre.
  2:{ injection H as _ <-. apply Hleft.
      eapply extends_trans; [exact E1 | eapply preprocess_emits_pre; eauto]. }
  assert (E2 : extends is_pre_split_event w wb).
  { eapply extends_trans; [exact E1 | eapply preprocess_emits_pre; eauto]. }
  destruct E2 as [pre [Htr Hev]].
  pose proof (no_smote_before_split pre Hev) as Hpre_none.
  unfold bind at 1 in H. unfold call at 1 in H.
  destruct (sk_train_test_split L X y ts rs)
    as [[[[X_train X_test] y_train] y_test] | e] eqn:Hsplit.
  2:{ injection H as _ <-. exists (pre ++ [TrainTestSplit X y ts rs]). split.
      - simpl. now rewrite Htr, <- app_assoc.
      - left. now rewrite smote_calls_app, Hpre_none. }
  unfold bind at 1 in H. unfold _handle_class_imbalance at 1 in H.
  destruct (imbalanced y_train).
  - unfold call at 1 in H.
    destruct (imb_fit_resample L rs X_train y_train) as [[X_res y_res] | e].
    + destruct (scaling_emits L X_res X_test y_res y_test fn _ _ _ H) as [suffix [Hs Hsev]].
      exists (pre ++ [TrainTestSplit X y ts rs; SmoteFitResample rs X_train y_train] ++ suffix).
      split.
      * rewrite Hs. simpl. rewrite Htr, <- !app_assoc. reflexivity.
      * right. exists X, y, X_train, X_test, y_train, y_test. split; [exact Hsplit|].
        rewrite !smote_calls_app, Hpre_none, (no_smote_in_scaling _ Hsev). reflexivity.
    + injection H as _ <-.
      exists (pre ++ [TrainTestSplit X y ts rs; SmoteFitResample rs X_train y_train]).
      split.
      * simpl. rewrite Htr, <- !app_assoc. reflexivity.
      * right. exists X, y, X_train, X_test, y_train, y_test. split; [exact Hsplit|].
        now rewrite smote_calls_app, Hpre_none.
  - unfold ret at 1 in H.
    destruct (scaling_emits L X_train X_test y_train y_test fn _ _ _ H) as [suffix [Hs Hsev]].
    exists (pre ++ [TrainTestSplit X y ts rs] ++ suffix). split.
    + rewrite Hs. simpl. rewrite Htr, <- !app_assoc. reflexivity.
    + left. rewrite !smote_calls_app, Hpre_none, (no_smote_in_scaling _ Hsev). reflexivity.
Qed.

(** A run that fails in the resampler: it was called once, on the eight
    training rows. *)
Lemma resampler_placement_witness :
  exists r w',
    load_data Cases.lib "rare.csv" "target" (2 # 10) 42 Demo.w0 = (r, w') /\
    exists new,
      trace w' = trace Demo.w0 ++ new /\
      (smote_calls new = [] \/
       exists X y X_train X_test y_train y_test,
         sk_train_test_split Cases.lib X y (2 # 10) 42
         = Ok (X_train, X_test, y_train, y_test) /\
         smote_calls new = [(42%Z, X_train, y_train)]).
Proof.
  do 2 eexists. split; [vm_compute; reflexivity|].
  eapply (resampler_sees_only_the_training_partition Cases.lib "rare.csv" "target").
  vm_compute; reflexivity.
Defined.

End BalancerPlacement.

(* ===================================================================== *)
(** ** The entry point, whatever the input *)
(* ===================================================================== *)

Section MainEdges.

Import Main.

(** X9.  [main] never gets past loading.  Once the command line is parsed
    (which happens before the [try]), and whatever the libraries answer,
    the [try] block of [main] ends in the top-level handler: with the
    exception of [load_data] when loading fails, with the unpacking error
    when it succeeds.  The handler prints six lines, ["Error: "] followed by
    the message of that exception and then the checklist; [main] returns
    normally in both cases, and no model is trained, evaluated or
    explained. *)
Theorem main_always_ends_in_the_handler (L : libs) (a : args) (w : world) :
  let run := DataLoader.load_data L (data a) Config.target_column (test_size a)
               (random_state a) (mk_world (trace w) None None) in
  let e := match fst run with
           | Ok _ => ValueError "too many values to unpack (expected 4)"
           | Err e => e
           end in
  main L a w
  = (Ok tt,
     mk_world (trace (snd run) ++
               [Print (String "010" ("Error: " ++ exn_msg e));
                Print (String "010" "Please check the following:");
                Print "1. The file path is correct";
                Print "2. The file is in a supported format (.csv, .xls, .xlsx)";
                Print "3. The specified target column exists in the data";
                Print "4. The data is properly formatted"])
              (scaler (snd run)) (feature_names_ (snd run))) /\
  exists new, trace (snd (main L a w)) = trace w ++ new /\
              existsb is_stage_event new = false.
Proof.
  intros run e.
  assert (Hmain : main L a w
                  = (Ok tt, mk_world (trace (snd run) ++ map Print (handler_lines e))
                                     (scaler (snd run)) (feature_names_ (snd run)))).
  { unfold main, try_except, pipeline.
    unfold bind at 1. unfold DataLoader.init.
    unfold bind at 1. subst e. fold run.
    destruct run as [[r | e0] w1] eqn:Hrun.
    - assert (Hu : unpack4 (tuple_items r) = Err too_many_values).
      { destruct r as [[[[X_train X_test] y_train] y_test] fn]. reflexivity. }
      unfold bind at 1. unfold lift. rewrite Hu.
      apply print_all_trace.
    - apply print_all_trace. }
  split; [exact Hmain|].
  destruct (load_data_emits L _ _ _ _ _ _ _ (surjective_pairing run)) as [new [Htr Hev]].
  simpl in Htr.
  exists (new ++ map Print (handler_lines e)). split.
  - rewrite Hmain. simpl. rewrite Htr, app_assoc. reflexivity.
  - rewrite existsb_app, (loader_events_are_no_stage _ Hev). reflexivity.
Qed.

End MainEdges.

(* ===================================================================== *)
(** ** The bars of a chart: which attributions are shown *)
(* ===================================================================== *)


Section ChartBars.

Import SHAPExplainer.
Local Open Scope Q_scope.

(** X10.  How many bars, and which.  The indices charted are distinct indices of
    the attribution vector, and there are [top_n] of them, or as many as
    there are attributions when these are fewer; with [top_n = min(10,
    len(feature_names))] a chart never has more than ten bars. *)
Theorem top_indices_are_distinct_and_bounded (shap_values : list Q) (top_n : nat) :
  List.length (top_indices shap_values top_n) = Nat.min top_n (List.length shap_values) /\
  NoDup (top_indices shap_values top_n) /\
  (forall i, In i (top_indices shap_values top_n) -> (i < List.length shap_values)%nat) /\
  (forall names : list string,
     List.length (top_indices shap_values (Nat.min 10 (List.length names))) <= 10)%nat.
Proof.
  pose proof (argsort_perm (map (fun v => Qopp (Qabs v)) shap_values)) as Hperm.
  rewrite length_map in Hperm.
  assert (Hlen : forall k, List.length (top_indices shap_values k)
                           = Nat.min k (List.length shap_values)).
  { intros k. unfold top_indices. rewrite length_firstn.
    now rewrite (Permutation_length Hperm), length_seq. }
  split; [apply Hlen|]. split; [|split].
  - unfold top_indices.
    assert (Hnd : NoDup (argsort (map (fun v => Qopp (Qabs v)) shap_values))).
    { eapply Permutation_NoDup; [symmetry; exact Hperm | apply seq_NoDup]. }
    rewrite <- (firstn_skipn top_n) in Hnd. now apply NoDup_app_remove_r in Hnd.
  - apply top_indices_bound.
  - intros names. rewrite Hlen. lia.
Qed.

(** X11.  The bars are the largest attributions.  The indices charted come by
    decreasing magnitude of their attribution, and no attribution left out
    of the chart has a larger magnitude than one that is in it. *)
Theorem top_indices_hold_the_largest_magnitudes (shap_values : list Q) (top_n : nat) :
  StronglySorted (fun i j => magnitude shap_values j <= magnitude shap_values i)
                 (top_indices shap_values top_n) /\
  forall i j,
    In i (top_indices shap_values top_n) ->
    (j < List.length shap_values)%nat ->
    ~ In j (top_indices shap_values top_n) ->
    magnitude shap_values j <= magnitude shap_values i.
Proof.
  set (keys := map (fun v => Qopp (Qabs v)) shap_values).
  pose proof (sort_sorted (fun i => nth i keys 0) (seq 0 (List.length keys))) as Hs.
  fold (argsort keys) in Hs.
  rewrite <- (firstn_skipn top_n (argsort keys)) in Hs.
  apply sorted_app_inv in Hs. destruct Hs as [Hfirst Hcross].
  assert (Hkey : forall a b, key_before (fun i => nth i keys 0) a b ->
                             magnitude shap_values b <= magnitude shap_values a).
  { intros a b H. unfold key_before, keys in H. rewrite !magnitude_key in H. lra. }
  split.
  - unfold top_indices. fold keys.
    assert (Himpl : forall l,
              StronglySorted (key_before (fun i => nth i keys 0)) l ->
              StronglySorted
                (fun i j => magnitude shap_values j <= magnitude shap_values i) l).
    { induction 1 as [|x l Hl IH Hall]; constructor; [exact IH|].
      eapply Forall_impl; [|exact Hall]. intros b Hb. now apply Hkey. }
    now apply Himpl.
  - intros i j Hi Hj Hnot. apply Hkey. apply Hcross; [exact Hi|].
    assert (Hin : In j (argsort keys)).
    { eapply Permutation_in; [symmetry; apply argsort_perm|].
      apply in_seq. unfold keys. rewrite length_map. lia. }
    rewrite <- (firstn_skipn top_n (argsort keys)) in Hin.
    apply in_app_or in Hin. destruct Hin as [Hin | Hin]; [|exact Hin].
    exfalso. now apply Hnot.
Qed.

End ChartBars.

Section ChartBarsWitnesses.

Import SHAPExplainer.
Local Open Scope Q_scope.

Lemma top_indices_bounded_witness :
  In 2%nat (top_indices [1 # 2; - (1 # 5); 3] 2) /\ (2 < 3)%nat.
Proof.
  assert (H : In 2%nat (top_indices [1 # 2; - (1 # 5); 3] 2)) by (left; reflexivity).
  split; [exact H|].
  exact (proj1 (proj2 (proj2 (top_indices_are_distinct_and_bounded
                                [1 # 2; - (1 # 5); 3] 2))) 2%nat H).
Defined.

Lemma top_indices_largest_witness :
  In 0%nat (top_indices [1 # 2; - (1 # 5); 3] 2) /\
  ~ In 1%nat (top_indices [1 # 2; - (1 # 5); 3] 2) /\
  magnitude [1 # 2; - (1 # 5); 3] 1 <= magnitude [1 # 2; - (1 # 5); 3] 0.
Proof.
  assert (Hi : In 0%nat (top_indices [1 # 2; - (1 # 5); 3] 2)) by (right; left; reflexivity).
  assert (Hj : ~ In 1%nat (top_indices [1 # 2; - (1 # 5); 3] 2)).
  { intros [H | [H | []]]; discriminate H. }
  split; [exact Hi|]. split; [exact Hj|].
  apply (proj2 (top_indices_hold_the_largest_magnitudes [1 # 2; - (1 # 5); 3] 2)
               0%nat 1%nat Hi); [simpl; lia | exact Hj].
Defined.

End ChartBarsWitnesses.

(* ===================================================================== *)
(** ** Charts: what escapes, what is skipped *)
(* ===================================================================== *)

Section ChartEdges.

Import SHAPExplainer.

Lemma plt_ok (L : libs) (op : plt_op) (w : world) :
  plt_call L op = Ok tt -> plt L op w = (Ok tt, emit (Plt op) w).
Proof. intros H. unfold plt, call. now rewrite H. Qed.

(** The first element that raises decides a comprehension. *)
Lemma comprehension_raises {A B} (f : A -> M B) (g : A -> B) (e : exn)
  (l : list A) (w : world) :
  (forall x, In x l -> f x w = (Ok (g x), w) \/ f x w = (Err e, w)) ->
  (exists x, In x l /\ f x w = (Err e, w)) ->
  comprehension f l w = (Err e, w).
Proof.
  induction l as [|x rest IH]; intros Hall [z [Hz Hfail]]; [inversion Hz|].
  simpl. unfold bind.
  destruct (Hall x (or_introl eq_refl)) as [Hok | Herr].
  - rewrite Hok. destruct Hz as [<- | Hz]; [congruence|].
    rewrite IH; [reflexivity | | eauto].
    intros y Hy. apply Hall. now right.
  - now rewrite Herr.
Qed.

(** X12.  An attribution vector longer than the names.  When the names are not
    empty and some attribution at an index beyond [feature_names] outweighs
    every attribution at an index within them, the chart reaches an index
    beyond the names, whichever way the sort orders equal magnitudes, and
    the waterfall chart is given up: the bars have been drawn, the
    [IndexError] of the label lookup is caught, a warning line and the
    traceback are printed, and no file is saved. *)
Theorem waterfall_gives_up_on_an_index_beyond_the_names
  (L : libs) (s : self) (expected_value : Q) (shap_values : nparray)
  (X_test_df : pyval) (output_file : string) (w : world) (names : list string)
  (i : nat) :
  feature_names s = Some names ->
  (forall op, plt_call L op = Ok tt) ->
  names <> [] ->
  (List.length names <= i < List.length (flatten shap_values))%nat ->
  (forall j, (j < List.length names)%nat ->
             (magnitude (flatten shap_values) j < magnitude (flatten shap_values) i)%Q) ->
  exists idx,
    ranked_selection (flatten shap_values) (Nat.min 10 (List.length names)) idx /\
    (exists k, In k idx /\ (List.length names <= k)%nat) /\
    _create_waterfall_plot L s expected_value shap_values X_test_df output_file w
    = (Ok tt,
       mk_world (trace w ++
                 [Plt (Figure 12 6);
                  Plt (Barh (seq 0 (List.length idx)) (rev (take (flatten shap_values) idx))
                            (rev (map (color_of (flatten shap_values)) idx)));
                  Print "Warning: Could not create waterfall plot: list index out of range";
                  PrintExc])
                (scaler w) (feature_names_ w)) /\
    saved_files (trace (snd (_create_waterfall_plot L s expected_value shap_values
                               X_test_df output_file w)))
    = saved_files (trace w).
Proof.
  intros Hnames Hplt Hne Hi Hbig.
  set (idx := top_indices (flatten shap_values) (Nat.min 10 (List.length names))).
  pose proof (top_indices_ranked (flatten shap_values) (Nat.min 10 (List.length names)))
    as Hranked.
  fold idx in Hranked.
  assert (Hout : exists k, In k idx /\ (List.length names <= k)%nat).
  { apply (ranked_selection_leaves_the_names _ _ _ i _ Hranked); [|exact Hi | exact Hbig].
    destruct names; [congruence|]. simpl List.length. lia. }
  assert (Hrun : _create_waterfall_plot L s expected_value shap_values X_test_df output_file w
                 = (Ok tt,
                    mk_world (trace w ++
                      [Plt (Figure 12 6);
                       Plt (Barh (seq 0 (List.length idx)) (rev (take (flatten shap_values) idx))
                                 (rev (map (color_of (flatten shap_values)) idx)));
                       Print "Warning: Could not create waterfall plot: list index out of range";
                       PrintExc])
                      (scaler w) (feature_names_ w))).
  { unfold _create_waterfall_plot, try_except. rewrite Hnames.
    unfold bind at 1. rewrite (plt_ok L _ _ (Hplt _)).
    unfold bind at 1. unfold len_names at 1. unfold ret at 1.
    fold idx.
    unfold bind at 1. rewrite (plt_ok L _ _ (Hplt _)).
    unfold bind at 1.
    rewrite (comprehension_raises _ (fun i => TickName (nth i names EmptyString))
               (IndexError "list index out of range")).
    - unfold bind, print, call, emit. simpl. rewrite <- !app_assoc. reflexivity.
    - intros j Hj. unfold bind, name_at.
      destruct (nth_error names j) as [n|] eqn:E; [left | right; reflexivity].
      now rewrite (nth_error_nth _ _ EmptyString E).
    - destruct Hout as [k [Hk Hkout]].
      exists k. split; [exact Hk|]. unfold bind, name_at.
      destruct (nth_error names k) as [n|] eqn:E; [|reflexivity].
      assert (nth_error names k <> None) by congruence.
      apply nth_error_Some in H. lia. }
  exists idx. split; [exact Hranked|]. split; [exact Hout|]. split; [exact Hrun|].
  rewrite Hrun. simpl. rewrite saved_files_app. simpl. apply app_nil_r.
Qed.

(** Three names and four attributions, the largest of them the fourth. *)
Lemma waterfall_gives_up_witness :
  feature_names Demo.three_names = Some ["limit_bal"; "age"; "bill_amt1"] /\
  (3 <= 3 < List.length (flatten (Vec [1 # 2; - (1 # 5); 3; 4]%Q)))%nat /\
  exists idx,
    ranked_selection [1 # 2; - (1 # 5); 3; 4]%Q 3 idx /\
    (exists k, In k idx /\ (3 <= k)%nat) /\
    _create_waterfall_plot Demo.lib Demo.three_names 0
      (Vec [1 # 2; - (1 # 5); 3; 4]%Q) (PyArray []) "waterfall.png" Demo.w0
    = (Ok tt,
       mk_world ([] ++
                 [Plt (Figure 12 6);
                  Plt (Barh (seq 0 (List.length idx))
                            (rev (take [1 # 2; - (1 # 5); 3; 4]%Q idx))
                            (rev (map (color_of [1 # 2; - (1 # 5); 3; 4]%Q) idx)));
                  Print "Warning: Could not create waterfall plot: list index out of range";
                  PrintExc])
                None None) /\
    saved_files (trace (snd (_create_waterfall_plot Demo.lib Demo.three_names 0
                               (Vec [1 # 2; - (1 # 5); 3; 4]%Q) (PyArray [])
                               "waterfall.png" Demo.w0)))
    = [].
Proof.
  split; [reflexivity|]. split; [simpl; lia|].
  apply (waterfall_gives_up_on_an_index_beyond_the_names
           Demo.lib Demo.three_names 0 (Vec [1 # 2; - (1 # 5); 3; 4]%Q)
           (PyArray []) "waterfall.png" Demo.w0
           ["limit_bal"; "age"; "bill_amt1"] 3%nat eq_refl (fun _ => eq_refl)).
  - discriminate.
  - simpl; lia.
  - intros j Hj.
    destruct j as [|[|[|j]]]; [reflexivity | reflexivity | reflexivity | simpl in Hj; lia].
Defined.

End ChartEdges.

Section ExplainEdges.

Import SHAPExplainer.

Lemma top_indices_length (shap_values : list Q) (top_n : nat) :
  List.length (top_indices shap_values top_n) = Nat.min top_n (List.length shap_values).
Proof.
  unfold top_indices. rewrite length_firstn.
  rewrite (Permutation_length (argsort_perm _)), length_seq, length_map. reflexivity.
Qed.

(** X13.  The first-prediction chart of an array.  [main] hands the explainer the
    scaled test matrix, a numpy array, where the chart code expects a frame
    with [.iloc].  With at least one attribution and one name, and the
    attributions no more than the names, the bars of the indices of
    largest magnitude are drawn, then the label of the first bar raises
    [AttributeError]; it is caught, the warning is printed, and the chart is
    not saved. *)
Theorem first_prediction_chart_of_an_array_is_never_saved
  (L : libs) (s : self) (shap_values : nparray) (a : ndarray)
  (output_file : string) (w : world) (names : list string) :
  feature_names s = Some names ->
  (forall op, plt_call L op = Ok tt) ->
  flatten shap_values <> [] -> names <> [] ->
  (List.length (flatten shap_values) <= List.length names)%nat ->
  exists idx,
    ranked_selection (flatten shap_values) (Nat.min 10 (List.length names)) idx /\
    _create_first_prediction_plot L s shap_values (PyArray a) output_file w
    = (Ok tt,
       mk_world (trace w ++
                 [Plt (Figure 12 6);
                  Plt (Barh (seq 0 (List.length idx)) (rev (take (flatten shap_values) idx))
                            (rev (map (color_of (flatten shap_values)) idx)));
                  Print ("Warning: Could not create first prediction plot: "
                         ++ "'numpy.ndarray' object has no attribute 'iloc'")%string])
                (scaler w) (feature_names_ w)) /\
    saved_files (trace (snd (_create_first_prediction_plot L s shap_values (PyArray a)
                               output_file w)))
    = saved_files (trace w).
Proof.
  intros Hnames Hplt Hsv Hn Hlen.
  set (idx := top_indices (flatten shap_values) (Nat.min 10 (List.length names))).
  assert (Hrun : _create_first_prediction_plot L s shap_values (PyArray a) output_file w
    = (Ok tt,
       mk_world (trace w ++
                 [Plt (Figure 12 6);
                  Plt (Barh (seq 0 (List.length idx)) (rev (take (flatten shap_values) idx))
                            (rev (map (color_of (flatten shap_values)) idx)));
                  Print ("Warning: Could not create first prediction plot: "
                         ++ "'numpy.ndarray' object has no attribute 'iloc'")%string])
                (scaler w) (feature_names_ w))).
  { unfold _create_first_prediction_plot, try_except. rewrite Hnames.
    unfold bind at 1. unfold len_names at 1. unfold ret at 1.
    fold idx.
    unfold bind at 1. rewrite (plt_ok L _ _ (Hplt _)).
    unfold bind at 1. rewrite (plt_ok L _ _ (Hplt _)).
    unfold bind at 1.
    assert (Hfail : forall i, In i idx ->
              (name <- name_at (Some names) i ;;
               v <- iloc0 (PyArray a) i ;; ret (TickNameValue name v))%py
                (emit (Plt (Barh (seq 0 (List.length idx)) (rev (take (flatten shap_values) idx))
                                 (rev (map (color_of (flatten shap_values)) idx))))
                      (emit (Plt (Figure 12 6)) w))
              = (Err (AttributeError "'numpy.ndarray' object has no attribute 'iloc'"),
                 emit (Plt (Barh (seq 0 (List.length idx)) (rev (take (flatten shap_values) idx))
                                 (rev (map (color_of (flatten shap_values)) idx))))
                      (emit (Plt (Figure 12 6)) w))).
    { intros i Hi. apply top_indices_bound in Hi.
      unfold bind. rewrite name_at_in_range by lia. reflexivity. }
    rewrite (comprehension_raises _ (fun i => TickNameValue EmptyString 0)
               (AttributeError "'numpy.ndarray' object has no attribute 'iloc'")).
    - unfold print, call, emit. simpl. rewrite <- !app_assoc. reflexivity.
    - intros i Hi. right. now apply Hfail.
    - assert (Hpos : (0 < List.length idx)%nat).
      { unfold idx. rewrite top_indices_length.
        destruct (flatten shap_values); [congruence|]. destruct names; [congruence|].
        simpl List.length. lia. }
      destruct idx as [|i rest] eqn:E; [simpl in Hpos; lia|].
      exists i. split; [now left|]. apply Hfail. now left. }
  exists idx. split; [apply top_indices_ranked|]. split; [exact Hrun|].
  rewrite Hrun. simpl. rewrite saved_files_app. simpl. apply app_nil_r.
Qed.

Lemma first_prediction_chart_witness :
  exists idx,
    ranked_selection [1 # 2; - (1 # 5)]%Q 3 idx /\
    _create_first_prediction_plot Demo.lib Demo.three_names (Vec [1 # 2; - (1 # 5)]%Q)
      (PyArray [[1; 2; 3]]%Q) "first.png" Demo.w0
    = (Ok tt,
       mk_world ([] ++
                 [Plt (Figure 12 6);
                  Plt (Barh (seq 0 (List.length idx)) (rev (take [1 # 2; - (1 # 5)]%Q idx))
                            (rev (map (color_of [1 # 2; - (1 # 5)]%Q) idx)));
                  Print ("Warning: Could not create first prediction plot: "
                         ++ "'numpy.ndarray' object has no attribute 'iloc'")%string])
                None None) /\
    saved_files (trace (snd (_create_first_prediction_plot Demo.lib Demo.three_names
                               (Vec [1 # 2; - (1 # 5)]%Q) (PyArray [[1; 2; 3]]%Q)
                               "first.png" Demo.w0)))
    = [].
Proof.
  apply (first_prediction_chart_of_an_array_is_never_saved
           Demo.lib Demo.three_names (Vec [1 # 2; - (1 # 5)]%Q) [[1; 2; 3]]%Q
           "first.png" Demo.w0 ["limit_bal"; "age"; "bill_amt1"] eq_refl (fun _ => eq_refl)).
  - discriminate.
  - discriminate.
  - simpl; lia.
Defined.

(** X14.  The summary and the bar chart.  Their figure is opened before the [try]:
    when opening it raises, that exception escapes and nothing else is
    called; when it opens, the function returns normally whatever the
    plotting and saving calls do. *)
Theorem summary_plot_fails_only_on_its_figure
  (L : libs) (s : self) (bar : bool) (shap_values : shap_out) (X_test_df : pyval)
  (output_file : string) (w : world) :
  (forall e, plt_call L (Figure 12 (if bar then 6 else 8)) = Err e ->
     _create_summary_plot L s bar shap_values X_test_df output_file w
     = (Err e, emit (Plt (Figure 12 (if bar then 6 else 8))) w)) /\
  (plt_call L (Figure 12 (if bar then 6 else 8)) = Ok tt ->
     fst (_create_summary_plot L s bar shap_values X_test_df output_file w) = Ok tt).
Proof.
  unfold _create_summary_plot. split.
  - intros e He. unfold bind at 1. unfold plt at 1. unfold call at 1. now rewrite He.
  - intros Hok. unfold bind at 1. rewrite (plt_ok L _ _ Hok).
    apply try_print_returns. intros e w1. reflexivity.
Qed.

Lemma summary_plot_witness :
  fst (_create_summary_plot Demo.lib Demo.three_names false (ShapArray (Vec []))
         (PyNames []) "summary.png" Demo.w0) = Ok tt.
Proof.
  exact (proj2 (summary_plot_fails_only_on_its_figure Demo.lib Demo.three_names false
                  (ShapArray (Vec [])) (PyNames []) "summary.png" Demo.w0) eq_refl).
Defined.

Lemma bind_returns {A B} (c : M A) (k : A -> M B) (a : A) (w : world) :
  fst (c w) = Ok a -> bind c k w = k a (snd (c w)).
Proof.
  unfold bind. destruct (c w) as [[x | e] w1]; simpl; intros H; [|discriminate].
  now injection H as ->.
Qed.

Lemma summary_plot_returns (L : libs) (s : self) (bar : bool) (shap_values : shap_out)
  (X_test_df : pyval) (output_file : string) (w : world) :
  (forall h, plt_call L (Figure 12 h) = Ok tt) ->
  fst (_create_summary_plot L s bar shap_values X_test_df output_file w) = Ok tt.
Proof.
  intros Hfig. unfold _create_summary_plot. unfold bind at 1.
  rewrite (plt_ok L _ _ (Hfig _)).
  apply try_print_returns. intros e w1. reflexivity.
Qed.

Lemma visualizations_return (L : libs) (s : self) (ev : expected) (sv : shap_out)
  (X_test_df : pyval) (f1 f2 : string) (w : world) :
  fst (_create_prediction_visualizations L s ev sv X_test_df f1 f2 w) = Ok tt.
Proof.
  apply try_print_returns. intros e w1. reflexivity.
Qed.

(** X15.  Charts are best effort.  Once the attributions have been computed, the
    choice of class 1 goes through and the two summary figures open,
    [explain] returns normally: a failure of any plotting, labelling or
    saving call is caught and reported by a warning, and the remaining
    charts are still attempted. *)
Theorem explain_returns_when_the_figures_open
  (L : libs) (s : self) (X X_test_df : pyval) (paths : Config.file_paths)
  (w : world) (out : shap_out) :
  shap_shap_values L (model s) X = Ok out ->
  selection_goes_through s out ->
  (forall h, plt_call L (Figure 12 h) = Ok tt) ->
  fst (explain L s X X_test_df paths w) = Ok tt.
Proof.
  intros Hout Hsel Hfig. unfold explain.
  unfold bind at 1. unfold call at 1. rewrite Hout.
  assert (Hrest : forall sv ev w1,
            fst ((_create_summary_plot L s false sv X_test_df (Config.shap_summary paths) ;;;
                  _create_summary_plot L s true sv X_test_df (Config.shap_bar paths) ;;;
                  _create_prediction_visualizations L s ev sv X_test_df
                    (Config.shap_first_prediction paths) (Config.shap_waterfall paths))%py w1)
            = Ok tt).
  { intros sv ev w1.
    rewrite (bind_returns _ _ tt) by (now apply summary_plot_returns).
    rewrite (bind_returns _ _ tt) by (now apply summary_plot_returns).
    apply visualizations_return. }
  unfold selection_goes_through in Hsel.
  destruct out as [[|x [|x2 l]] | arr].
  - unfold bind at 1. unfold ret at 1. apply Hrest.
  - unfold bind at 1. unfold ret at 1. apply Hrest.
  - destruct (expected_value s) as [q | [|e1 [|e2 es]]]; try contradiction.
    unfold bind at 1. unfold ret at 1. apply Hrest.
  - unfold bind at 1. unfold ret at 1. apply Hrest.
Qed.

End ExplainEdges.

Section ExplainWitness.

Import SHAPExplainer.

(** The summary plots fail to render; [explain] still returns. *)
Lemma explain_returns_witness :
  fst (explain Cases.charting Cases.two_classes (PyArray [[1; 2]%Q]) (PyArray [[1; 2]%Q])
         Config.FILE_PATHS Demo.w0) = Ok tt.
Proof.
  apply (explain_returns_when_the_figures_open Cases.charting Cases.two_classes
           (PyArray [[1; 2]%Q]) (PyArray [[1; 2]%Q]) Config.FILE_PATHS Demo.w0
           (ShapList [Mat [[0; 0]%Q]; Mat [[1 # 2; - (1 # 5)]%Q]]) eq_refl).
  - exact I.
  - intros h. reflexivity.
Defined.

End ExplainWitness.

(* ===================================================================== *)
(** ** explore_data.py: cleaned column names *)
(* ===================================================================== *)

Section CleanNames.

Import Explore.

Lemma lower_is_char_map (s : string) : Str.lower s = char_map Str.lower_ascii s.
Proof. induction s as [|c s IH]; simpl; [reflexivity | now rewrite IH]. Qed.

Lemma replace_is_char_map (s : string) :
  replace_spaces s = char_map replace_space_ascii s.
Proof. induction s as [|c s IH]; simpl; [reflexivity | now rewrite IH]. Qed.

Lemma lower_keeps_non_space (c : ascii) :
  is_whitespace c = false -> is_whitespace (Str.lower_ascii c) = false.
Proof. destruct c as [[] [] [] [] [] [] [] []]; intros H; try reflexivity; discriminate H. Qed.

Lemma replace_keeps_non_space (c : ascii) :
  is_whitespace c = false -> is_whitespace (replace_space_ascii c) = false.
Proof. destruct c as [[] [] [] [] [] [] [] []]; intros H; try reflexivity; discriminate H. Qed.

Lemma head_clean_lstrip (s : string) : head_clean (lstrip s) = true.
Proof.
  induction s as [|c s IH]; simpl; [reflexivity|].
  destruct (is_whitespace c) eqn:E; [exact IH|]. simpl. now rewrite E.
Qed.

Lemma lstrip_head_clean (s : string) : head_clean s = true -> lstrip s = s.
Proof.
  destruct s as [|c s]; simpl; [reflexivity|].
  destruct (is_whitespace c); [discriminate | reflexivity].
Qed.

Lemma head_clean_rstrip (s : string) :
  head_clean s = true -> head_clean (rstrip s) = true.
Proof.
  destruct s as [|c s]; simpl; [reflexivity|].
  intros H. destruct (rstrip s); simpl.
  - destruct (is_whitespace c) eqn:Ec; [discriminate | simpl; now rewrite Ec].
  - exact H.
Qed.

Lemma rstrip_idem (s : string) : rstrip (rstrip s) = rstrip s.
Proof.
  induction s as [|c s IH]; simpl; [reflexivity|].
  destruct (rstrip s) as [|d r] eqn:E.
  - destruct (is_whitespace c) eqn:Ec; simpl; [reflexivity | now rewrite Ec].
  - simpl. simpl in IH. destruct (rstrip r) as [|d' r'] eqn:Er.
    + destruct (is_whitespace d); [discriminate IH | now rewrite IH].
    + now rewrite IH.
Qed.

Lemma head_clean_char_map (f : ascii -> ascii) (s : string) :
  (forall c, is_whitespace c = false -> is_whitespace (f c) = false) ->
  head_clean s = true -> head_clean (char_map f s) = true.
Proof.
  intros Hf. destruct s as [|c s]; simpl; [reflexivity|].
  intros H. apply negb_true_iff in H. now rewrite (Hf c H).
Qed.

Lemma rstrip_fixed_char_map (f : ascii -> ascii) (s : string) :
  (forall c, is_whitespace c = false -> is_whitespace (f c) = false) ->
  rstrip s = s -> rstrip (char_map f s) = char_map f s.
Proof.
  intros Hf. induction s as [|c s IH]; simpl; [reflexivity|].
  destruct (rstrip s) as [|d r] eqn:E.
  - destruct (is_whitespace c) eqn:Ec; [discriminate|].
    intros H. injection H as <-. simpl. now rewrite (Hf c Ec).
  - intros H. injection H as Hs. rewrite IH by exact Hs.
    rewrite <- Hs. simpl. reflexivity.
Qed.

Lemma clean_chars (c : ascii) :
  Str.lower_ascii (replace_space_ascii (Str.lower_ascii c))
  = replace_space_ascii (Str.lower_ascii c) /\
  replace_space_ascii (replace_space_ascii c) = replace_space_ascii c /\
  is_blank (replace_space_ascii c) = false /\
  is_upper (replace_space_ascii (Str.lower_ascii c)) = false.
Proof. destruct c as [[] [] [] [] [] [] [] []]; repeat split. Qed.

Lemma char_map_char_map (f g : ascii -> ascii) (s : string) :
  char_map f (char_map g s) = char_map (fun c => f (g c)) s.
Proof. induction s as [|c s IH]; simpl; [reflexivity | now rewrite IH]. Qed.

Lemma char_map_ext (f g : ascii -> ascii) (s : string) :
  (forall c, f c = g c) -> char_map f s = char_map g s.
Proof. intros H. induction s as [|c s IH]; simpl; [reflexivity | now rewrite H, IH]. Qed.

Lemma has_char_char_map (p : ascii -> bool) (f : ascii -> ascii) (s : string) :
  (forall c, p (f c) = false) -> has_char p (char_map f s) = false.
Proof. intros H. induction s as [|c s IH]; simpl; [reflexivity | now rewrite H, IH]. Qed.

Lemma clean_name_chars (s : string) :
  clean_name s
  = char_map (fun c => replace_space_ascii (Str.lower_ascii c)) (strip s).
Proof.
  unfold clean_name. now rewrite lower_is_char_map, replace_is_char_map, char_map_char_map.
Qed.

Lemma strip_clean_name (s : string) : strip (clean_name s) = clean_name s.
Proof.
  rewrite clean_name_chars.
  assert (Hf : forall c, is_whitespace c = false ->
                 is_whitespace (replace_space_ascii (Str.lower_ascii c)) = false).
  { intros c H. now apply replace_keeps_non_space, lower_keeps_non_space. }
  unfold strip at 1. rewrite lstrip_head_clean.
  - apply rstrip_fixed_char_map; [exact Hf|]. unfold strip. apply rstrip_idem.
  - apply head_clean_char_map; [exact Hf|].
    unfold strip. apply head_clean_rstrip, head_clean_lstrip.
Qed.

(** X16.  Cleaning the column names is a normal form.  A cleaned name holds no
    space character and no upper-case ASCII letter, and cleaning it again
    changes nothing. *)
Theorem clean_name_is_a_normal_form (s : string) :
  clean_name (clean_name s) = clean_name s /\
  has_char is_blank (clean_name s) = false /\
  has_char is_upper (clean_name s) = false.
Proof.
  split; [|split].
  - unfold clean_name at 1. rewrite strip_clean_name.
    rewrite clean_name_chars, lower_is_char_map, replace_is_char_map, !char_map_char_map.
    apply char_map_ext. intros c.
    destruct (clean_chars c) as (H1 & _ & _ & _).
    destruct (clean_chars (Str.lower_ascii c)) as (_ & H2 & _ & _).
    now rewrite H1, H2.
  - rewrite clean_name_chars. apply has_char_char_map. intros c.
    now destruct (clean_chars (Str.lower_ascii c)) as (_ & _ & H & _).
  - rewrite clean_name_chars. apply has_char_char_map. intros c.
    now destruct (clean_chars c) as (_ & _ & _ & H).
Qed.

End CleanNames.

Section CleanVersusLower.

Import Explore.

Lemma length_char_map (f : ascii -> ascii) (s : string) :
  String.length (char_map f s) = String.length s.
Proof. induction s as [|c s IH]; simpl; [reflexivity | now rewrite IH]. Qed.

Lemma lstrip_length (s : string) :
  (String.length (lstrip s) <= String.length s)%nat /\
  (String.length (lstrip s) = String.length s -> lstrip s = s).
Proof.
  induction s as [|c s [IH1 IH2]]; simpl; [split; auto|].
  destruct (is_whitespace c); simpl; split; try lia; auto.
Qed.

Lemma rstrip_length (s : string) :
  (String.length (rstrip s) <= String.length s)%nat /\
  (String.length (rstrip s) = String.length s -> rstrip s = s).
Proof.
  induction s as [|c s [IH1 IH2]]; simpl; [split; auto|].
  destruct (rstrip s) as [|d r] eqn:E.
  - destruct (is_whitespace c); simpl in *; split; try lia.
    intros H. destruct s; [reflexivity | simpl in H; lia].
  - simpl in *. split; [lia|]. intros H. f_equal. apply IH2. lia.
Qed.

Lemma strip_same_length (s : string) :
  String.length (strip s) = String.length s -> strip s = s.
Proof.
  unfold strip. intros H.
  destruct (lstrip_length s) as [L1 L2].
  destruct (rstrip_length (lstrip s)) as [R1 R2].
  rewrite R2 by lia. apply L2. lia.
Qed.

Lemma blank_after_lower (s : string) :
  has_char is_blank (Str.lower s) = has_char is_blank s.
Proof.
  induction s as [|c s IH]; simpl; [reflexivity|]. rewrite IH. f_equal.
  destruct c as [[] [] [] [] [] [] [] []]; reflexivity.
Qed.

Lemma replace_without_blank (s : string) :
  has_char is_blank s = false -> replace_spaces s = s.
Proof.
  induction s as [|c s IH]; simpl; [reflexivity|]. intros H.
  apply orb_false_iff in H. destruct H as [Hc Hs]. rewrite (IH Hs). f_equal.
  unfold replace_space_ascii. unfold is_blank in Hc. now rewrite Hc.
Qed.

Lemma clean_name_has_no_blank (s : string) : has_char is_blank (clean_name s) = false.
Proof.
  rewrite clean_name_chars. apply has_char_char_map. intros c.
  now destruct (clean_chars (Str.lower_ascii c)) as (_ & _ & H & _).
Qed.

(** X17.  Cleaned names against the names [load_data] matches.  For a column
    name of ASCII characters, the name that the exploration script shows is
    the name [load_data] compares the target with (the lower-cased one)
    exactly when the raw name has no whitespace around it and no space
    inside.  In particular no cleaned name equals the configured target,
    whose words are separated by spaces. *)
Theorem clean_name_is_the_loaders_name_iff (L : libs) (c : string) :
  Str.isascii c = true ->
  (clean_name c = py_lower L c <->
   strip c = c /\ has_char is_blank c = false) /\
  clean_name c <> Config.target_column.
Proof.
  intros Hascii. unfold py_lower. rewrite Hascii.
  split.
  - split.
    + intros H.
      assert (Hs : strip c = c).
      { apply strip_same_length.
        rewrite <- (length_lower c), <- H, clean_name_chars. now rewrite length_char_map. }
      split; [exact Hs|].
      rewrite <- blank_after_lower, <- H. apply clean_name_has_no_blank.
    + intros [Hs Hb]. unfold clean_name. rewrite Hs.
      apply replace_without_blank. now rewrite blank_after_lower.
  - intros H. pose proof (clean_name_has_no_blank c) as Hb.
    rewrite H in Hb. discriminate Hb.
Qed.

Lemma clean_name_versus_lower_witness :
  Str.isascii "LIMIT_BAL" = true /\
  clean_name "LIMIT_BAL" = py_lower Demo.lib "LIMIT_BAL" /\
  clean_name " Pay 0 " = "pay_0"%string /\
  py_lower Demo.lib " Pay 0 " = " pay 0 "%string.
Proof.
  split; [reflexivity|]. split; [|split; reflexivity].
  apply (proj2 (proj1 (clean_name_is_the_loaders_name_iff Demo.lib "LIMIT_BAL" eq_refl))).
  split; reflexivity.
Defined.

End CleanVersusLower.

Section PreprocessShapes.

Import DataLoader.

Lemma set_column_rows_length (i : nat) (values : Series) (rs : list (list cell)) :
  List.length (Frame.set_column_rows i values rs) = List.length rs.
Proof.
  revert values. induction rs as [|r rs IH]; intros values;
    destruct values as [|v vs]; simpl; try reflexivity.
  now rewrite IH.
Qed.

(** X4.  Preprocessing keeps the rows.  A successful [_preprocess_data] returns
    one target value per row of the table; a numeric target is passed
    through as it is; and when the table has none of the configured
    categorical columns, the feature matrix has one row per row of the table
    and its columns are the returned [feature_names]. *)
Theorem preprocess_keeps_one_entry_per_row
  (L : libs) (data : DataFrame) (tc : string) (w w' : world)
  (X : DataFrame) (y : Series) (fn : list string) :
  _preprocess_data L data tc w = (Ok (X, y, fn), w') ->
  List.length y = List.length (rows data) /\
  (forall i, Frame.positions tc (columns data) 0 = [i] ->
             is_object (Frame.column_at data i) = false ->
             y = Frame.column_at data i) /\
  (filter (Frame.has_column data) Config.categorical_columns = [] ->
   List.length (rows X) = List.length (rows data) /\ columns X = fn).
Proof.
  unfold _preprocess_data. intros H.
  destruct (Frame.positions tc (columns data) 0) as [|i [|j rest]];
    [discriminate | | discriminate].
  unfold bind, call, ret, set_feature_names_ in H.
  destruct (is_object (Frame.column_at data i)) eqn:Hobj.
  - destruct (pd_cat_codes L (Frame.column_at data i)) as [codes|]; [|discriminate].
    cbv beta iota in H.
    change (Frame.has_column (Frame.setitem data i codes)) with (Frame.has_column data) in H.
    destruct (filter (Frame.has_column data) Config.categorical_columns) eqn:F.
    + injection H as <- <- <- _. split; [|split].
      * unfold Frame.column_at. simpl. now rewrite length_map, set_column_rows_length.
      * intros k Hk Hno. injection Hk as <-. congruence.
      * intros _. split; [|apply (drop_columns (Frame.setitem data i codes))].
        unfold Frame.drop. simpl. now rewrite length_map, set_column_rows_length.
    + destruct (pd_get_dummies L _ _); [|discriminate].
      injection H as _ <- _ _. split; [|split].
      * unfold Frame.column_at. simpl. now rewrite length_map, set_column_rows_length.
      * intros k Hk Hno. injection Hk as <-. congruence.
      * discriminate.
  - destruct (filter (Frame.has_column data) Config.categorical_columns) eqn:F.
    + injection H as <- <- <- _. split; [|split].
      * unfold Frame.column_at. now rewrite length_map.
      * intros k Hk _. now injection Hk as <-.
      * intros _. split; [|apply drop_columns].
        unfold Frame.drop. simpl. now rewrite length_map.
    + destruct (pd_get_dummies L _ _); [|discriminate].
      injection H as _ <- _ _. split; [|split].
      * unfold Frame.column_at. now rewrite length_map.
      * intros k Hk _. now injection Hk as <-.
      * discriminate.
Qed.

Lemma preprocess_keeps_rows_witness :
  exists X y fn w',
    _preprocess_data Demo.lib (lower_columns Demo.lib Demo.clients) Config.target_column Demo.w0
    = (Ok (X, y, fn), w') /\
    List.length y = 10%nat /\ List.length (rows X) = 10%nat /\ columns X = fn.
Proof.
  do 4 eexists. split; [vm_compute; reflexivity|].
  pose proof (preprocess_keeps_one_entry_per_row Demo.lib (lower_columns Demo.lib Demo.clients)
                Config.target_column Demo.w0 _ _ _ _ eq_refl) as (Hy & _ & HX).
  split; [exact Hy|]. exact (HX eq_refl).
Defined.

End PreprocessShapes.
